(** * Hybrid retrieval core of the RAG service: a shallow embedding

    The development follows the Python sources module by module:

    - [app/utils/vector_store.py]   : [hybrid_score_norm], [upload_vectors],
      [similarity_search], [delete_namespace], [list_namespaces];
    - [app/models/schemas.py]       : the [QueryRequest] validators;
    - [app/services/rag_service.py] : [process_document], [query];
    - [app/routers/*.py]            : the HTTP handlers.

    Conventions.
    - A Python [float] is an IEEE 754 binary64 number, modelled by the
      Standard Library's [spec_float] at precision 53 and [emax] 1024.
    - A Python [str] is a [string]; a character stands for the code point
      of the same number (code points below 256).
    - Remote collaborators (the vector index, the embedding model, the
      sparse encoder, the language model, the PDF loader and splitter) are
      deterministic functions of the interaction history, gathered in the
      record [Provider].  Every call to one of them is appended to a trace
      of [Event]s, which is the state threaded through the code.
    - An exception is a value of [PyExc]; a computation returns either
      [Ok v] or [Raise e] together with the trace it produced.
    - Output printed on stdout is not modelled. *)

From Stdlib Require Import ZArith List String Ascii Bool Lia Arith DecimalString.
From Stdlib Require Import Floats.SpecFloat.
From Stdlib Require DecimalNat Finite.
Import ListNotations.
Local Open Scope string_scope.
Local Open Scope Z_scope.

(** ** Python floats *)

Module PyFloat.

Definition prec : Z := 53.
Definition emax : Z := 1024.

Definition float := spec_float.

Definition fmul (x y : float) : float := SFmul prec emax x y.
Definition fsub (x y : float) : float := SFsub prec emax x y.
Definition flt (x y : float) : bool := SFltb x y.
Definition fle (x y : float) : bool := SFleb x y.

(** The literals the sources and the specification use. *)
Definition f0 : float := S754_zero false.
Definition f1 : float := S754_finite false 4503599627370496 (-52).
Definition f_half : float := S754_finite false 4503599627370496 (-53).
(** [-0.01 = -0x1.47ae147ae147bp-7] and [1.01 = 0x1.028f5c28f5c29p+0]. *)
Definition f_minus_0_01 : float := S754_finite true 5764607523034235 (-59).
Definition f_1_01 : float := S754_finite false 4548635623644201 (-52).

End PyFloat.
Import PyFloat.

(** ** Exceptions and results *)

(** The pieces of an f-string, kept unrendered: literal text, an
    interpolated [str], and an interpolated list of [str] (rendered by
    Python with the [repr] of each element). *)
Inductive FPart : Type :=
| FLit (s : string)
| FStr (s : string)
| FInt (z : Z)
| FReprStr (s : string)
| FStrList (l : list string).

Definition Message := list FPart.

Inductive PyExc : Type :=
| ValueError (msg : Message)
| ZeroDivisionError
| KeyError (key : string)
| IndexError
| TypeError
| FileNotFoundError (msg : Message)
| ExternalError (msg : Message)      (* raised by a remote collaborator *)
| ValidationError (fields : list string)
| HTTPException (status : Z) (detail : Message).

Inductive Result (A : Type) : Type :=
| Ok (a : A)
| Raise (e : PyExc).
Arguments Ok {A} a.
Arguments Raise {A} e.

(** ** Vectors *)

(** A sparse vector is the dict [{'indices': [...], 'values': [...]}]. *)
Record SparseVector : Type := mkSparse {
  indices : list Z;
  values : list float
}.

(** [hybrid_score_norm(dense, sparse, alpha)], vector_store.py lines 7-23. *)
Definition hybrid_score_norm (dense : list float) (sparse : SparseVector)
    (alpha : float) : Result (list float * SparseVector) :=
  if flt alpha f0 || flt f1 alpha then
    Raise (ValueError [FLit "Alpha must be between 0 and 1"])
  else
    let hs := {| indices := indices sparse;
                 values := map (fun v => fmul v (fsub f1 alpha)) (values sparse) |} in
    Ok (map (fun v => fmul v alpha) dense, hs).


(** ** The state-and-exception monad of the service code *)

(** A Python value found in a metadata dict.  [VOther shown] is a value of
    another type (a float, say), carried with what [str] prints for it. *)
Inductive PyVal : Type :=
| VNone
| VStr (s : string)
| VInt (z : Z)
| VOther (shown : string).

(** A langchain [Document]. *)
Record Document : Type := mkDocument {
  page_content : string;
  metadata : list (string * PyVal)
}.

(** The dict assembled per chunk by [process_document]. *)
Record VectorMeta : Type := mkVectorMeta {
  meta_text : string;
  meta_page : PyVal;
  meta_page_label : PyVal
}.

Record Vector : Type := mkVector {
  vec_id : string;
  vec_values : list float;
  vec_sparse_values : SparseVector;
  vec_metadata : VectorMeta
}.

(** The keyword arguments of [index.query]; [qp_sparse_vector] is [None]
    when the key ["sparse_vector"] is not in the dict. *)
Record QueryParams : Type := mkQueryParams {
  qp_namespace : string;
  qp_top_k : Z;
  qp_include_metadata : bool;
  qp_vector : list float;
  qp_sparse_vector : option SparseVector
}.

(** An element of [results.matches]. *)
Record Match : Type := mkMatch {
  match_id : string;
  match_score : float;
  match_metadata : list (string * PyVal)
}.

(** A chat message: role and content. *)
Record ChatMessage : Type := mkChat {
  role : string;
  content : Message
}.

(** Calls that leave the process. *)
Inductive Event : Type :=
| EvPathExists (path : string)
| EvMakedirs (path : string)
| EvWriteFile (path : string) (data : string)
| EvRemove (path : string)
| EvLoadPdf (path : string)
| EvSplit (docs : list Document) (chunk_size chunk_overlap : Z)
| EvEmbedDocuments (texts : list string)
| EvEncodeDocuments (texts : list string)
| EvUpsert (batch : list Vector) (namespace : string)
| EvLoadPdfUrl (url : string)
| EvDescribeStats
| EvEmbedQuery (q : string)
| EvEncodeQueries (qs : list string)
| EvIndexQuery (params : QueryParams)
| EvIndexDelete (namespace : string)
| EvLLM (messages : list ChatMessage).

Definition Trace := list Event.

(** What the collaborators answer, as a function of the calls made so far. *)
Record Provider : Type := mkProvider {
  path_exists : Trace -> string -> bool;
  fs_op : Trace -> Event -> Result unit;
  load_pdf_url : Trace -> string -> Result (list Document);
  load_pdf : Trace -> string -> Result (list Document);
  split_documents : Trace -> list Document -> Z -> Z -> Result (list Document);
  embed_documents : Trace -> list string -> Result (list (list float));
  encode_documents : Trace -> list string -> Result (list SparseVector);
  index_upsert : Trace -> list Vector -> string -> Result unit;
  index_describe_stats : Trace -> Result (list string);
  embed_query : Trace -> string -> Result (list float);
  encode_queries : Trace -> list string -> Result (list SparseVector);
  index_query : Trace -> QueryParams -> Result (list Match);
  index_delete : Trace -> string -> Result unit;
  llm_invoke : Trace -> list ChatMessage -> Result string
}.

Definition M (A : Type) : Type := Trace -> Result A * Trace.

Definition ret {A} (a : A) : M A := fun t => (Ok a, t).
Definition raise {A} (e : PyExc) : M A := fun t => (Raise e, t).
Definition bind {A B} (m : M A) (f : A -> M B) : M B :=
  fun t => match m t with
           | (Ok a, t') => f a t'
           | (Raise e, t') => (Raise e, t')
           end.
Definition lift {A} (r : Result A) : M A := fun t => (r, t).

(** A call to a collaborator: it is logged, and it answers from the
    history before the call. *)
Definition call {A} (ev : Event) (answer : Trace -> Result A) : M A :=
  fun t => (answer t, (t ++ [ev])%list).

(** [try: body except Exception as e: handler(e)]. *)
Definition try_except {A} (body : M A) (handler : PyExc -> M A) : M A :=
  fun t => match body t with
           | (Ok a, t') => (Ok a, t')
           | (Raise e, t') => handler e t'
           end.

Declare Scope py_scope.
Delimit Scope py_scope with py.
Notation "x <- m ;; k" := (bind m (fun x => k))
  (at level 61, m at next level, right associativity) : py_scope.
Notation "' pat <- m ;; k" := (bind m (fun x => match x with pat => k end))
  (at level 61, pat pattern, m at next level, right associativity) : py_scope.
Notation "m ;;; k" := (bind m (fun _ => k))
  (at level 61, right associativity) : py_scope.
Local Open Scope py_scope.

(** [for x in l: body(x)]. *)
Fixpoint for_each {A} (l : list A) (body : A -> M unit) : M unit :=
  match l with
  | [] => ret tt
  | x :: rest => body x ;;; for_each rest body
  end.

(** ** Python built-ins *)

Definition len {A} (l : list A) : Z := Z.of_nat (List.length l).

Fixpoint py_range_aux (fuel : nat) (i stop step : Z) : list Z :=
  match fuel with
  | O => []
  | S fuel' =>
      if (if 0 <? step then i <? stop else stop <? i)
      then i :: py_range_aux fuel' (i + step) stop step
      else []
  end.

(** [range(start, stop, step)] for a step other than zero. *)
Definition py_range (start stop step : Z) : list Z :=
  py_range_aux (Z.to_nat (Z.abs (stop - start))) start stop step.

(** A slice bound: negative counts from the end, and it is clamped. *)
Definition clamp_index (n i : Z) : nat :=
  Z.to_nat (if i <? 0 then Z.max 0 (i + n) else Z.min i n).

(** [l[i:j]]. *)
Definition py_slice {A} (l : list A) (i j : Z) : list A :=
  let a := clamp_index (len l) i in
  let b := clamp_index (len l) j in
  firstn (b - a) (skipn a l).

(** [math.ceil(n / d)] for [d] other than zero; exact while the quotient
    is far below 2^52, as every list length is. *)
Definition ceil_div (n d : Z) : Z := - ((- n) / d).

Fixpoint zip3 {A B C} (la : list A) (lb : list B) (lc : list C) : list (A * B * C) :=
  match la, lb, lc with
  | a :: la', b :: lb', c :: lc' => (a, b, c) :: zip3 la' lb' lc'
  | _, _, _ => []
  end.

Fixpoint enumerate_from {A} (i : nat) (l : list A) : list (nat * A) :=
  match l with
  | [] => []
  | x :: rest => (i, x) :: enumerate_from (S i) rest
  end.

Definition enumerate {A} (l : list A) : list (nat * A) := enumerate_from 0 l.

(** [d.get(key, default)] and [d[key]]. *)
Fixpoint dict_get (d : list (string * PyVal)) (key : string) (default : PyVal) : PyVal :=
  match d with
  | [] => default
  | (k, v) :: rest => if String.eqb k key then v else dict_get rest key default
  end.

Fixpoint dict_item (d : list (string * PyVal)) (key : string) : Result PyVal :=
  match d with
  | [] => Raise (KeyError key)
  | (k, v) :: rest => if String.eqb k key then Ok v else dict_item rest key
  end.

Definition str_of_nat (n : nat) : string := NilZero.string_of_uint (Nat.to_uint n).

(** [str(v)], unrendered for an integer. *)
Definition py_str (v : PyVal) : Message :=
  match v with
  | VNone => [FLit "None"]
  | VStr s => [FStr s]
  | VInt z => [FInt z]
  | VOther shown => [FLit shown]
  end.

(** [str(e)] for an exception. *)
Definition str_of_exc (e : PyExc) : Message :=
  match e with
  | ValueError msg => msg
  | ZeroDivisionError => [FLit "division by zero"]
  | KeyError key => [FReprStr key]
  | IndexError => [FLit "list index out of range"]
  | TypeError => [FLit "sequence item: expected str instance"]
  | FileNotFoundError msg => msg
  | ExternalError msg => msg
  | ValidationError fields => [FLit "validation error for "; FStrList fields]
  | HTTPException status detail => FInt status :: FLit ": " :: detail
  end.

(** [x in l] for a list of [str]. *)
Definition str_in (x : string) (l : list string) : bool :=
  existsb (String.eqb x) l.

(** *** [str.strip], [str.lower], [str.replace] *)

Definition is_space (c : ascii) : bool :=
  let n := nat_of_ascii c in
  ((9 <=? n) && (n <=? 13) || (28 <=? n) && (n <=? 32)
   || (n =? 133) || (n =? 160))%nat.

Definition lower_char (c : ascii) : ascii :=
  let n := nat_of_ascii c in
  if ((65 <=? n) && (n <=? 90)
      || (192 <=? n) && (n <=? 222) && negb (n =? 215))%nat
  then ascii_of_nat (n + 32) else c.

Fixpoint lstrip (s : string) : string :=
  match s with
  | EmptyString => EmptyString
  | String c rest => if is_space c then lstrip rest else s
  end.

Fixpoint rstrip (s : string) : string :=
  match s with
  | EmptyString => EmptyString
  | String c rest =>
      match rstrip rest with
      | EmptyString => if is_space c then EmptyString else String c EmptyString
      | r => String c r
      end
  end.

Definition strip (s : string) : string := rstrip (lstrip s).

Fixpoint lower (s : string) : string :=
  match s with
  | EmptyString => EmptyString
  | String c rest => String (lower_char c) (lower rest)
  end.

(** [s.replace(a, b)] for one-character [a] and [b]. *)
Fixpoint replace_char (a b : ascii) (s : string) : string :=
  match s with
  | EmptyString => EmptyString
  | String c rest => String (if Ascii.eqb c a then b else c) (replace_char a b rest)
  end.

(** [sep.join(parts)]. *)
Fixpoint join (sep : string) (parts : list string) : string :=
  match parts with
  | [] => ""
  | [p] => p
  | p :: rest => p ++ sep ++ join sep rest
  end.

Definition nl : string := String (ascii_of_nat 10) "".
Definition dquote : string := String (ascii_of_nat 34) "".

(** [a or b] for an optional [str]: [None] and the empty string are falsy. *)
Definition str_or (a : option string) (b : string) : string :=
  match a with
  | Some s => if String.eqb s "" then b else s
  | None => b
  end.

(** ** config/settings.py *)

Record Settings : Type := mkSettings {
  PDF_PATH : string;
  CHUNK_SIZE : Z;
  CHUNK_OVERLAP : Z
}.

Definition default_settings (pdf_path : string) : Settings :=
  {| PDF_PATH := pdf_path; CHUNK_SIZE := 1000; CHUNK_OVERLAP := 100 |}.

(** ** models/schemas.py *)

Record QueryRequest : Type := mkQueryRequest {
  req_query : string;
  req_k : Z;
  req_namespace : string;
  req_alpha : float
}.

Record Source : Type := mkSource {
  src_content : string;
  src_id : string;
  src_page : Message;
  src_page_label : Message
}.

Record QueryResponse : Type := mkQueryResponse {
  answer : string;
  sources : list Source
}.

Record DocumentResponse : Type := mkDocumentResponse {
  message : Message
}.

Record NamespaceListResponse : Type := mkNamespaceListResponse {
  namespaces : list string;
  total : Z
}.

(** [QueryRequest.validate_query], lines 15-19. *)
Definition validate_query (v : string) : Result string :=
  if String.eqb (strip v) "" then
    Raise (ValueError [FLit "Query cannot be empty or just whitespace"])
  else Ok (strip v).

(** [QueryRequest.validate_namespace], lines 21-25. *)
Definition validate_namespace (v : string) : Result string :=
  if String.eqb (strip v) "" then
    Raise (ValueError [FLit "Namespace cannot be empty or just whitespace"])
  else Ok (replace_char " " "_" (lower (strip v))).

(** The fields of a request body as the client sent them; [k] and [alpha]
    are optional. *)
Record RawQueryRequest : Type := mkRawQueryRequest {
  raw_query : string;
  raw_k : option Z;
  raw_namespace : string;
  raw_alpha : option float
}.

Definition field_error {A} (name : string) (r : Result A) : list string :=
  match r with Ok _ => [] | Raise _ => [name] end.

(** Construction of a [QueryRequest]: the [Field] constraints, then the
    validator of the field; every failing field is reported. *)
Definition parse_QueryRequest (raw : RawQueryRequest) : Result QueryRequest :=
  let q :=
    if (Z.of_nat (String.length (raw_query raw)) <? 3)
       || (500 <? Z.of_nat (String.length (raw_query raw)))
    then Raise (ValidationError ["query"])
    else validate_query (raw_query raw) in
  let k := match raw_k raw with None => 3 | Some k => k end in
  let kr := if (k <? 1) || (100 <? k) then Raise (ValidationError ["k"]) else Ok k in
  let n := validate_namespace (raw_namespace raw) in
  let a := match raw_alpha raw with None => f_half | Some a => a end in
  let ar := if fle f0 a && fle a f1 then Ok a else Raise (ValidationError ["alpha"]) in
  match q, kr, n, ar with
  | Ok q', Ok k', Ok n', Ok a' =>
      Ok {| req_query := q'; req_k := k'; req_namespace := n'; req_alpha := a' |}
  | _, _, _, _ =>
      Raise (ValidationError (field_error "query" q ++ field_error "k" kr
                              ++ field_error "namespace" n ++ field_error "alpha" ar)%list)
  end.

(** An uploaded file: its name and its bytes. *)
Record UploadFile : Type := mkUploadFile {
  filename : string;
  file_content : string
}.

(** The assembly loop of [process_document], lines 79-91 (and of
    [process_url_document], lines 136-148). *)
Definition prepare_vectors (namespace : string) (chunks : list Document)
    (embeddings : list (list float)) (sparse_vectors : list SparseVector) : list Vector :=
  map (fun '(i, (doc, embedding, sparse_vector)) =>
         {| vec_id := namespace ++ "#chunk" ++ str_of_nat (i + 1);
            vec_values := embedding;
            vec_sparse_values := sparse_vector;
            vec_metadata :=
              {| meta_text := page_content doc;
                 meta_page := dict_get (metadata doc) "page" VNone;
                 meta_page_label := dict_get (metadata doc) "page_label" VNone |} |})
      (enumerate (zip3 chunks embeddings sparse_vectors)).

Definition system_prompt : string :=
    "You are a helpful AI assistant that answers questions based ONLY on the provided context. " ++ nl ++
    "                Follow these rules strictly:" ++ nl ++
    "                1. ONLY use information from the provided context to answer the question" ++ nl ++
    "                2. If the context doesn't contain relevant information to answer the question, try to:" ++ nl ++
    "                   a. Look for related concepts or ideas in the context" ++ nl ++
    "                   b. Check if the question can be answered from a different angle using the available information" ++ nl ++
    "                   c. Only if no relevant information is found, respond with " ++ dquote ++ "I cannot answer this question as the provided context does not contain relevant information." ++ dquote ++ "" ++ nl ++
    "                3. DO NOT make up or add information that is not present in the context" ++ nl ++
    "                4. DO NOT provide general knowledge or information outside the context" ++ nl ++
    "                5. If the context is about a specific topic (e.g., a book), mention that your answer is based on that specific source" ++ nl ++
    "                6. Keep your answer concise and focused on the information from the context" ++ nl ++
    "                7. If the question is general, try to find the most relevant information in the context that could help answer it".

(** [[f(x) for x in l]] for an [f] that can raise. *)
Fixpoint map_result {A B} (f : A -> Result B) (l : list A) : Result (list B) :=
  match l with
  | [] => Ok []
  | x :: rest =>
      match f x with
      | Raise e => Raise e
      | Ok y => match map_result f rest with
                | Raise e => Raise e
                | Ok ys => Ok (y :: ys)
                end
      end
  end.

(** [match.metadata["text"]] as an item of [str.join]. *)
Definition match_text (m : Match) : Result string :=
  match dict_item (match_metadata m) "text" with
  | Raise e => Raise e
  | Ok (VStr s) => Ok s
  | Ok _ => Raise TypeError
  end.

Section Service.

Variable P : Provider.
Variable settings : Settings.

(** ** utils/vector_store.py *)

(** [VectorStore.upload_vectors], lines 46-65. *)
Definition upload_vectors (vectors : list Vector) (namespace : string)
    (batch_size : Z) : M unit :=
  match vectors with
  | [] => ret tt
  | _ =>
      if String.eqb namespace "" then
        raise (ValueError [FLit "Namespace is required for uploading vectors"])
      else if batch_size =? 0 then
        raise ZeroDivisionError   (* math.ceil(len(vectors) / batch_size) *)
      else
        for_each (py_range 0 (len vectors) batch_size) (fun i =>
          let batch := py_slice vectors i (i + batch_size) in
          call (EvUpsert batch namespace) (fun t => index_upsert P t batch namespace))
  end.

(** [VectorStore.similarity_search], lines 67-105. *)
Definition similarity_search (query_embedding : list float) (namespace : string)
    (k : Z) (query_sparse_vector : option SparseVector) (alpha : float)
    : M (list Match) :=
  if String.eqb namespace "" then
    raise (ValueError [FLit "Namespace is required for similarity search"])
  else
    let query_params :=
      {| qp_namespace := namespace; qp_top_k := k; qp_include_metadata := true;
         qp_vector := query_embedding; qp_sparse_vector := None |} in
    query_params <-
      match query_sparse_vector with
      | Some sparse =>
          '(normalized_dense, normalized_sparse) <-
             lift (hybrid_score_norm query_embedding sparse alpha) ;;
          ret {| qp_namespace := namespace; qp_top_k := k; qp_include_metadata := true;
                 qp_vector := normalized_dense;
                 qp_sparse_vector := Some normalized_sparse |}
      | None => ret query_params
      end ;;
    call (EvIndexQuery query_params) (fun t => index_query P t query_params).

(** [VectorStore.delete_namespace], lines 107-112. *)
Definition delete_namespace (namespace : string) : M unit :=
  if String.eqb namespace "" then
    raise (ValueError [FLit "Namespace is required"])
  else
    call (EvIndexDelete namespace) (fun t => index_delete P t namespace).

(** [VectorStore.list_namespaces], lines 114-123: the handler re-raises. *)
Definition list_namespaces : M (list string) :=
  call EvDescribeStats (index_describe_stats P).

(** ** utils/document_processing.py and utils/embeddings.py *)

Definition chunk_documents (documents : list Document) (chunk_size chunk_overlap : Z)
    : M (list Document) :=
  call (EvSplit documents chunk_size chunk_overlap)
       (fun t => split_documents P t documents chunk_size chunk_overlap).

Definition load_pdf_from_path (file_path : string) : M (list Document) :=
  present <- call (EvPathExists file_path) (fun t => Ok (path_exists P t file_path)) ;;
  if negb present then
    raise (FileNotFoundError [FLit "PDF file not found at "; FStr file_path])
  else
    call (EvLoadPdf file_path) (fun t => load_pdf P t file_path).

Definition load_pdf_from_url (url : string) : M (list Document) :=
  try_except
    (call (EvLoadPdfUrl url) (fun t => load_pdf_url P t url))
    (fun e => raise (ExternalError
                       (FLit "Failed to process PDF from URL: " :: str_of_exc e))).

Definition get_embeddings (texts : list string) : M (list (list float)) :=
  call (EvEmbedDocuments texts) (fun t => embed_documents P t texts).

(** ** services/rag_service.py *)

Definition _get_bm25_vectors (texts : list string) : M (list SparseVector) :=
  call (EvEncodeDocuments texts) (fun t => encode_documents P t texts).

(** Steps 2-6 of [process_document] and of [process_url_document]. *)
Definition process_loaded (documents : list Document) (namespace : string) : M unit :=
  chunks <- chunk_documents documents (CHUNK_SIZE settings) (CHUNK_OVERLAP settings) ;;
  let texts := map page_content chunks in
  embeddings <- get_embeddings texts ;;
  sparse_vectors <- _get_bm25_vectors texts ;;
  let vectors := prepare_vectors namespace chunks embeddings sparse_vectors in
  upload_vectors vectors namespace 50.

(** [RAGService.process_document], lines 42-97. *)
Definition process_document (file_path : string) (namespace : string) : M unit :=
  documents <- load_pdf_from_path file_path ;;
  process_loaded documents namespace.

(** [RAGService.process_url_document], lines 99-154. *)
Definition process_url_document (url : string) (namespace : string) : M unit :=
  documents <- load_pdf_from_url url ;;
  process_loaded documents namespace.

(** [RAGService.query], lines 156-242. *)
Definition query (query : string) (namespace : string) (k : Z) (alpha : float)
    : M QueryResponse :=
  available_namespaces <- list_namespaces ;;
  if negb (str_in namespace available_namespaces) then
    raise (ValueError [FLit "Namespace '"; FStr namespace;
                       FLit "' does not exist. Available namespaces: ";
                       FStrList available_namespaces])
  else
    query_embedding <- call (EvEmbedQuery query) (fun t => embed_query P t query) ;;
    encoded <- call (EvEncodeQueries [query]) (fun t => encode_queries P t [query]) ;;
    query_sparse_vector <-
      match encoded with
      | [] => raise IndexError
      | sv :: _ => ret sv
      end ;;
    results <- similarity_search query_embedding namespace k
                 (Some query_sparse_vector) alpha ;;
    match results with
    | [] => raise (ValueError [FLit "No results found in namespace '";
                               FStr namespace; FLit "'"])
    | _ =>
        texts <- lift (map_result match_text results) ;;
        let context := join (nl ++ nl) texts in
        let messages :=
          [ {| role := "system"; content := [FLit system_prompt] |};
            {| role := "user";
               content := [FLit "Context: "; FStr context;
                           FLit (nl ++ nl ++ "Question: "); FStr query] |} ] in
        response <- call (EvLLM messages) (fun t => llm_invoke P t messages) ;;
        srcs <- lift (map_result (fun m =>
                  match match_text m with
                  | Raise e => Raise e
                  | Ok text =>
                      Ok {| src_id := match_id m;
                            src_content := text;
                            src_page :=
                              py_str (dict_get (match_metadata m) "page" (VStr "N/A"));
                            src_page_label :=
                              py_str (dict_get (match_metadata m) "page_label" (VStr "N/A")) |}
                  end) results) ;;
        ret {| answer := response; sources := srcs |}
    end.

(** [RAGService.delete_document], lines 244-249. *)
Definition delete_document (namespace : string) : M unit :=
  delete_namespace namespace.

(** ** routers/query_router.py *)

(** [query_document], lines 32-58. *)
Definition query_document (request : QueryRequest) : M QueryResponse :=
  fun t =>
    match query (req_query request) (req_namespace request) (req_k request)
                (req_alpha request) t with
    | (Ok result, t') => (Ok result, t')
    | (Raise (ValueError msg), t') => (Raise (HTTPException 404 msg), t')
    | (Raise e, t') => (Raise (HTTPException 500 (str_of_exc e)), t')
    end.

(** ** routers/document_router.py *)

(** [upload_document], lines 33-76. *)
Definition upload_document (file : option UploadFile) (namespace : option string)
    : M DocumentResponse :=
  try_except
    (file_path <-
       match file with
       | None =>
           let default_file := PDF_PATH settings in
           present <- call (EvPathExists default_file)
                        (fun t => Ok (path_exists P t default_file)) ;;
           if negb present then
             raise (HTTPException 404
                      [FLit "Default file not found at "; FStr default_file])
           else ret default_file
       | Some f =>
           call (EvMakedirs "temp") (fun t => fs_op P t (EvMakedirs "temp")) ;;;
           let file_path := "temp/" ++ filename f in
           call (EvWriteFile file_path (file_content f))
                (fun t => fs_op P t (EvWriteFile file_path (file_content f))) ;;;
           ret file_path
       end ;;
     process_document file_path (str_or namespace "think-and-grow-rich") ;;;
     match file with
     | Some _ =>
         present <- call (EvPathExists file_path)
                      (fun t => Ok (path_exists P t file_path)) ;;
         if present then call (EvRemove file_path) (fun t => fs_op P t (EvRemove file_path))
         else ret tt
     | None => ret tt
     end ;;;
     ret {| message := [FLit "Document processed and uploaded to namespace '";
                        FStr (str_or namespace "think-and-grow-rich");
                        FLit "' successfully"] |})
    (fun e => raise (HTTPException 500 (str_of_exc e))).

(** [upload_url], lines 78-97. *)
Definition upload_url (url : string) (namespace : string) : M DocumentResponse :=
  try_except
    (process_url_document url namespace ;;;
     ret {| message := [FLit "Document from URL processed and uploaded to namespace '";
                        FStr namespace; FLit "' successfully"] |})
    (fun e => raise (HTTPException 500 (str_of_exc e))).

(** The handler [delete_document] of the router, lines 99-118. *)
Definition router_delete_document (namespace : string) : M DocumentResponse :=
  try_except
    (delete_document namespace ;;;
     ret {| message := [FLit "Documents in namespace '"; FStr namespace;
                        FLit "' deleted successfully"] |})
    (fun e => raise (HTTPException 500 (str_of_exc e))).

(** The handler [list_namespaces] of the router, lines 120-139. *)
Definition router_list_namespaces : M NamespaceListResponse :=
  try_except
    (namespaces <- list_namespaces ;;
     ret {| namespaces := namespaces; total := len namespaces |})
    (fun e => raise (HTTPException 500 (str_of_exc e))).

End Service.

(** ** Observations on traces and exceptions *)

Definition is_index_query (e : Event) : bool :=
  match e with EvIndexQuery _ => true | _ => false end.

Definition is_upsert (e : Event) : bool :=
  match e with EvUpsert _ _ => true | _ => false end.

(** The Python class of an exception. *)
Inductive ExcClass : Type :=
| CValueError | CZeroDivisionError | CKeyError | CIndexError | CTypeError
| CFileNotFoundError | CException | CValidationError | CHTTPException.

Definition exc_class (e : PyExc) : ExcClass :=
  match e with
  | ValueError _ => CValueError
  | ZeroDivisionError => CZeroDivisionError
  | KeyError _ => CKeyError
  | IndexError => CIndexError
  | TypeError => CTypeError
  | FileNotFoundError _ => CFileNotFoundError
  | ExternalError _ => CException
  | ValidationError _ => CValidationError
  | HTTPException _ _ => CHTTPException
  end.

(** The status code of the response a handler ends with. *)
Definition http_status {A} (r : Result A) : Z :=
  match r with
  | Ok _ => 200
  | Raise (HTTPException status _) => status
  | Raise _ => 500
  end.

(** The batches [upload_vectors] cuts a list into. *)
Definition batches (vectors : list Vector) (batch_size : Z) : list (list Vector) :=
  map (fun i => py_slice vectors i (i + batch_size))
      (py_range 0 (len vectors) batch_size).

(** A list cut from its head into pieces of [size] elements, the last one
    shorter when the length is not a multiple of [size]. *)
Fixpoint pieces {A} (fuel size : nat) (l : list A) : list (list A) :=
  match fuel with
  | O => []
  | S fuel' =>
      match l with
      | [] => []
      | _ :: _ => firstn size l :: pieces fuel' size (skipn size l)
      end
  end.

(** The lengths of the pieces of a list of [n] elements. *)
Fixpoint piece_sizes (fuel size n : nat) : list nat :=
  match fuel with
  | O => []
  | S fuel' =>
      match n with
      | O => []
      | S _ => Nat.min size n :: piece_sizes fuel' size (n - size)
      end
  end.

Definition upsert_events (ns : string) (bl : list (list Vector)) : list Event :=
  map (fun b => EvUpsert b ns) bl.

(** [name] reads, from the exception of a failed upload with batch size
    50, the number of the batch that failed and the number of batches. *)
Definition error_names_batch (name : PyExc -> nat * Z) : Prop :=
  forall (P : Provider) (vectors : list Vector) (ns : string) (t : Trace) (e : PyExc),
    ns <> "" ->
    fst (upload_vectors P vectors ns 50 t) = Raise e ->
    name e = (List.length (filter is_upsert (snd (upload_vectors P vectors ns 50 t)))
                - List.length (filter is_upsert t),
              ceil_div (len vectors) 50)%nat.

(** The keyword arguments of a hybrid index query whose dense and sparse
    parts are [emb] and [sv] scaled once, by [alpha] and by [1 - alpha]. *)
Definition hybrid_params (ns : string) (k : Z) (alpha : float) (emb : list float)
    (sv : SparseVector) : QueryParams :=
  {| qp_namespace := ns; qp_top_k := k; qp_include_metadata := true;
     qp_vector := map (fun x => fmul x alpha) emb;
     qp_sparse_vector :=
       Some {| indices := indices sv;
               values := map (fun x => fmul x (fsub f1 alpha)) (values sv) |} |}.

(** The keyword arguments of an index query that carries [emb] and [sv]
    as they are. *)
Definition raw_params (ns : string) (k : Z) (emb : list float)
    (sv : option SparseVector) : QueryParams :=
  {| qp_namespace := ns; qp_top_k := k; qp_include_metadata := true;
     qp_vector := emb; qp_sparse_vector := sv |}.

(** ** Observations on strings *)

(** Every character of the string is whitespace (so is the empty string). *)
Fixpoint all_space (s : string) : bool :=
  match s with
  | EmptyString => true
  | String c rest => is_space c && all_space rest
  end.

Fixpoint contains_char (a : ascii) (s : string) : bool :=
  match s with
  | EmptyString => false
  | String c rest => Ascii.eqb c a || contains_char a rest
  end.

(** A string changed character by character. *)
Fixpoint smap (f : ascii -> ascii) (s : string) : string :=
  match s with
  | EmptyString => EmptyString
  | String c rest => String (f c) (smap f rest)
  end.

(** ** Observations on runs *)

(** Whatever the history, the computation only appends calls that satisfy
    [Q] to it. *)
Definition emits {A} (Q : Event -> Prop) (m : M A) : Prop :=
  forall t : Trace, exists new : list Event, snd (m t) = (t ++ new)%list /\ Forall Q new.

(** The namespace an index call is addressed to. *)
Definition event_namespace (e : Event) : option string :=
  match e with
  | EvUpsert _ ns => Some ns
  | EvIndexQuery params => Some (qp_namespace params)
  | EvIndexDelete ns => Some ns
  | _ => None
  end.

(** Calls that change the content of the index. *)
Definition is_index_write (e : Event) : bool :=
  match e with
  | EvUpsert _ _ | EvIndexDelete _ => true
  | _ => false
  end.

(** The records of the upsert calls of a trace, in order. *)
Fixpoint upserted (t : Trace) : list Vector :=
  match t with
  | [] => []
  | EvUpsert batch _ :: rest => (batch ++ upserted rest)%list
  | _ :: rest => upserted rest
  end.

(** ** A small in-memory stand-in for the collaborators

    It is used to run the code on concrete inputs.  The index keeps what
    the successful upserts of the history wrote; the upsert call number
    [fail_at] (counted from 1), if any, is refused by the index; with
    [related] false the index finds no match for any query. *)

Module Demo.

Definition boom : PyExc := ExternalError [FLit "upsert refused"].

Definition paris : Document :=
  {| page_content := "The capital of France is Paris.";
     metadata := [("page", VInt 0); ("page_label", VStr "1")] |}.

Definition berlin : Document :=
  {| page_content := "The capital of Germany is Berlin.";
     metadata := [("page", VInt 1)] |}.

Definition sparse1 : SparseVector := {| indices := [7; 42]; values := [f1; f_half] |}.

Definition dense1 : list float := [f1; f_half].

Definition record (n : nat) : Vector :=
  {| vec_id := "ns#chunk" ++ str_of_nat n;
     vec_values := dense1;
     vec_sparse_values := sparse1;
     vec_metadata := {| meta_text := "text"; meta_page := VInt 0;
                        meta_page_label := VNone |} |}.

(** [records n] is a list of [n] records, numbered from 1. *)
Definition records (n : nat) : list Vector := map record (seq 1 n).

Definition failing (fail_at : option nat) (call_number : nat) : bool :=
  match fail_at with
  | Some n => Nat.eqb n call_number
  | None => false
  end.

(** The content of the index after the history [t]: the number of upsert
    calls seen, and the records written, by namespace, oldest first. *)
Fixpoint replay (fail_at : option nat) (calls : nat) (store : list (string * Vector))
    (t : Trace) : nat * list (string * Vector) :=
  match t with
  | [] => (calls, store)
  | EvUpsert batch ns :: rest =>
      if failing fail_at (S calls) then replay fail_at (S calls) store rest
      else replay fail_at (S calls) (store ++ map (fun v => (ns, v)) batch)%list rest
  | EvIndexDelete ns :: rest =>
      replay fail_at calls (filter (fun e => negb (String.eqb (fst e) ns)) store) rest
  | _ :: rest => replay fail_at calls store rest
  end.

Definition stored (fail_at : option nat) (t : Trace) : list (string * Vector) :=
  snd (replay fail_at 0 [] t).

Definition upsert_calls (fail_at : option nat) (t : Trace) : nat :=
  fst (replay fail_at 0 [] t).

Fixpoint dedup (l : list string) : list string :=
  match l with
  | [] => []
  | x :: rest => if str_in x rest then dedup rest else x :: dedup rest
  end.

Definition to_match (v : Vector) : Match :=
  {| match_id := vec_id v;
     match_score := f1;
     match_metadata := [("text", VStr (meta_text (vec_metadata v)));
                        ("page", meta_page (vec_metadata v))] |}.

Definition provider (chunks : list Document) (embeddings : list (list float))
    (sparse_vectors : list SparseVector) (fail_at : option nat) (related : bool)
    : Provider :=
  {| path_exists := fun _ _ => true;
     fs_op := fun _ _ => Ok tt;
     load_pdf_url := fun _ _ => Ok chunks;
     load_pdf := fun _ _ => Ok chunks;
     split_documents := fun _ _ _ _ => Ok chunks;
     embed_documents := fun _ _ => Ok embeddings;
     encode_documents := fun _ _ => Ok sparse_vectors;
     index_upsert := fun t _ _ =>
       if failing fail_at (S (upsert_calls fail_at t)) then Raise boom else Ok tt;
     index_describe_stats := fun t => Ok (dedup (map fst (stored fail_at t)));
     embed_query := fun _ _ => Ok dense1;
     encode_queries := fun _ qs => Ok (map (fun _ => sparse1) qs);
     index_query := fun t params =>
       if related then
         Ok (map to_match
               (firstn (Z.to_nat (qp_top_k params))
                  (map snd (filter (fun e => String.eqb (fst e) (qp_namespace params))
                              (stored fail_at t)))))
       else Ok [];
     index_delete := fun _ _ => Ok tt;
     llm_invoke := fun _ _ => Ok "Paris." |}.

(** One chunk, one embedding, one sparse vector, and an index that accepts
    every upsert. *)
Definition healthy : Provider := provider [paris] [dense1] [sparse1] None true.

(** The same, with an index that finds nothing close to any query. *)
Definition unrelated : Provider := provider [paris] [dense1] [sparse1] None false.

Definition settings : Settings := default_settings "data/Think-And-Grow-Rich.pdf".

(** The history of an index that holds one record under ["ns"]. *)
Definition one_record : Trace := [EvUpsert (records 1) "ns"].

Definition question : string := "What is the capital of France?".

End Demo.

(** Calls [query] may make: it reads the index and asks the models. *)
Definition is_query_call (e : Event) : bool :=
  match e with
  | EvDescribeStats | EvEmbedQuery _ | EvEncodeQueries _ | EvIndexQuery _ | EvLLM _ => true
  | _ => false
  end.

(** Calls an ingestion into [ns] may make: loading, splitting, embedding,
    encoding, and upserts addressed to [ns]. *)
Definition is_ingest_call (ns : string) (e : Event) : bool :=
  match e with
  | EvPathExists _ | EvLoadPdf _ | EvLoadPdfUrl _ | EvSplit _ _ _
  | EvEmbedDocuments _ | EvEncodeDocuments _ => true
  | EvUpsert _ ns' => String.eqb ns' ns
  | _ => false
  end.

(** The same, with the handling of the uploaded file around it. *)
Definition is_upload_call (ns : string) (e : Event) : bool :=
  match e with
  | EvMakedirs _ | EvWriteFile _ _ | EvRemove _ => true
  | _ => is_ingest_call ns e
  end.

(** The sign of a float that has one. *)
Definition float_sign (x : float) : bool :=
  match x with
  | S754_zero s | S754_infinity s | S754_finite s _ _ => s
  | S754_nan => false
  end.

Definition is_finite (x : float) : bool :=
  match x with
  | S754_zero _ | S754_finite _ _ _ => true
  | _ => false
  end.

(** ** Stand-ins with one collaborator out of order *)

Module Faulty.

Definition down : PyExc := ExternalError [FLit "service unavailable"].

(** No file exists on the disk. *)
Definition no_file : Provider :=
  {| path_exists := fun _ _ => false;
     fs_op := fs_op Demo.healthy;
     load_pdf_url := load_pdf_url Demo.healthy;
     load_pdf := load_pdf Demo.healthy;
     split_documents := split_documents Demo.healthy;
     embed_documents := embed_documents Demo.healthy;
     encode_documents := encode_documents Demo.healthy;
     index_upsert := index_upsert Demo.healthy;
     index_describe_stats := index_describe_stats Demo.healthy;
     embed_query := embed_query Demo.healthy;
     encode_queries := encode_queries Demo.healthy;
     index_query := index_query Demo.healthy;
     index_delete := index_delete Demo.healthy;
     llm_invoke := llm_invoke Demo.healthy |}.

(** The embedding model does not answer. *)
Definition no_embedder : Provider :=
  {| path_exists := path_exists Demo.healthy;
     fs_op := fs_op Demo.healthy;
     load_pdf_url := load_pdf_url Demo.healthy;
     load_pdf := load_pdf Demo.healthy;
     split_documents := split_documents Demo.healthy;
     embed_documents := fun _ _ => Raise down;
     encode_documents := encode_documents Demo.healthy;
     index_upsert := index_upsert Demo.healthy;
     index_describe_stats := index_describe_stats Demo.healthy;
     embed_query := fun _ _ => Raise down;
     encode_queries := encode_queries Demo.healthy;
     index_query := index_query Demo.healthy;
     index_delete := index_delete Demo.healthy;
     llm_invoke := llm_invoke Demo.healthy |}.

(** The URL cannot be fetched. *)
Definition no_network : Provider :=
  {| path_exists := path_exists Demo.healthy;
     fs_op := fs_op Demo.healthy;
     load_pdf_url := fun _ _ => Raise down;
     load_pdf := load_pdf Demo.healthy;
     split_documents := split_documents Demo.healthy;
     embed_documents := embed_documents Demo.healthy;
     encode_documents := encode_documents Demo.healthy;
     index_upsert := index_upsert Demo.healthy;
     index_describe_stats := index_describe_stats Demo.healthy;
     embed_query := embed_query Demo.healthy;
     encode_queries := encode_queries Demo.healthy;
     index_query := index_query Demo.healthy;
     index_delete := index_delete Demo.healthy;
     llm_invoke := llm_invoke Demo.healthy |}.

(** The splitter finds nothing to split. *)
Definition empty_document : Provider :=
  Demo.provider [] [] [] None true.

(** The sparse encoder returns no vector for the query. *)
Definition mute_encoder : Provider :=
  {| path_exists := path_exists Demo.healthy;
     fs_op := fs_op Demo.healthy;
     load_pdf_url := load_pdf_url Demo.healthy;
     load_pdf := load_pdf Demo.healthy;
     split_documents := split_documents Demo.healthy;
     embed_documents := embed_documents Demo.healthy;
     encode_documents := encode_documents Demo.healthy;
     index_upsert := index_upsert Demo.healthy;
     index_describe_stats := index_describe_stats Demo.healthy;
     embed_query := embed_query Demo.healthy;
     encode_queries := fun _ _ => Ok [];
     index_query := index_query Demo.healthy;
     index_delete := index_delete Demo.healthy;
     llm_invoke := llm_invoke Demo.healthy |}.

(** A match that came without the text of its chunk. *)
Definition bare_match : Match :=
  {| match_id := "ns#chunk1"; match_score := f1; match_metadata := [("page", VInt 0)] |}.

(** The index returns that match for every query. *)
Definition bare_matches : Provider :=
  {| path_exists := path_exists Demo.healthy;
     fs_op := fs_op Demo.healthy;
     load_pdf_url := load_pdf_url Demo.healthy;
     load_pdf := load_pdf Demo.healthy;
     split_documents := split_documents Demo.healthy;
     embed_documents := embed_documents Demo.healthy;
     encode_documents := encode_documents Demo.healthy;
     index_upsert := index_upsert Demo.healthy;
     index_describe_stats := index_describe_stats Demo.healthy;
     embed_query := embed_query Demo.healthy;
     encode_queries := encode_queries Demo.healthy;
     index_query := fun _ _ => Ok [bare_match];
     index_delete := index_delete Demo.healthy;
     llm_invoke := llm_invoke Demo.healthy |}.

End Faulty.

Local Open Scope list_scope.

(** ** Comparison facts on binary64 *)

Lemma compare_cont_Eq_antisym (p q : positive) :
  Pos.compare_cont Eq p q = CompOpp (Pos.compare_cont Eq q p).
Proof. symmetry. apply (Pos.compare_cont_antisym q p Eq). Qed.

Lemma SFleb_not_SFltb (a b : spec_float) : SFleb a b = true -> SFltb b a = false.
Proof.
  unfold SFleb, SFltb.
  destruct a as [sa | sa | | sa ma ea], b as [sb | sb | | sb mb eb];
    cbn [SFcompare]; try reflexivity; try discriminate;
    try (destruct sa; try destruct sb; intros; reflexivity || discriminate).
  destruct sa, sb; try (intros; reflexivity || discriminate);
    rewrite (Z.compare_antisym ea eb);
    destruct (ea ?= eb) eqn:He; cbn [CompOpp]; try (intros; reflexivity || discriminate);
    rewrite (compare_cont_Eq_antisym mb ma); cbn [CompOpp];
    destruct (Pos.compare_cont Eq ma mb); cbn [CompOpp]; intros; reflexivity || discriminate.
Qed.

Lemma fle_f0_not_flt (a : float) : fle f0 a = true -> flt a f0 = false.
Proof. apply SFleb_not_SFltb. Qed.

Lemma fle_f1_not_flt (a : float) : fle a f1 = true -> flt f1 a = false.
Proof. apply SFleb_not_SFltb. Qed.

Lemma hybrid_score_norm_ok (d : list float) (s : SparseVector) (alpha : float) :
  fle f0 alpha = true -> fle alpha f1 = true ->
  hybrid_score_norm d s alpha =
    Ok (map (fun x => fmul x alpha) d,
        {| indices := indices s;
           values := map (fun x => fmul x (fsub f1 alpha)) (values s) |}).
Proof.
  intros H0 H1. unfold hybrid_score_norm.
  rewrite (fle_f0_not_flt _ H0), (fle_f1_not_flt _ H1). reflexivity.
Qed.

(** C1: for every dense vector [d], sparse vector [s] and [alpha] with
    [0 <= alpha <= 1], [hybrid_score_norm d s alpha] returns the pair of
    [[x*alpha for x in d]] and the sparse vector with the indices of [s]
    unchanged and the values [[x*(1-alpha) for x in s.values]]. *)
Theorem hybrid_score_norm_in_range (d : list float) (s : SparseVector) (alpha : float) :
  fle f0 alpha = true -> fle alpha f1 = true ->
  hybrid_score_norm d s alpha =
    Ok (map (fun x => fmul x alpha) d,
        {| indices := indices s;
           values := map (fun x => fmul x (fsub f1 alpha)) (values s) |}).
Proof.
  intros H0 H1. unfold hybrid_score_norm.
  rewrite (fle_f0_not_flt _ H0), (fle_f1_not_flt _ H1). reflexivity.
Qed.

Lemma hybrid_score_norm_in_range_witness :
  hybrid_score_norm Demo.dense1 Demo.sparse1 f_half =
    Ok ([f_half; S754_finite false 4503599627370496 (-54)],
        {| indices := [7; 42];
           values := [f_half; S754_finite false 4503599627370496 (-54)] |}).
Proof.
  rewrite (hybrid_score_norm_in_range Demo.dense1 Demo.sparse1 f_half);
    [ vm_compute; reflexivity | vm_compute; reflexivity | vm_compute; reflexivity ].
Defined.

(** C3: [hybrid_score_norm] raises the [ValueError] of its guard if and
    only if [alpha < 0] or [alpha > 1], and returns otherwise; it raises
    at [alpha = -0.01] and [alpha = 1.01] and returns at [alpha = 0] and
    [alpha = 1]. *)
Theorem hybrid_score_norm_raises_iff :
  (forall d s alpha,
      hybrid_score_norm d s alpha
        = Raise (ValueError [FLit "Alpha must be between 0 and 1"])
      <-> (flt alpha f0 = true \/ flt f1 alpha = true))
  /\ (forall d s alpha,
      (exists e, hybrid_score_norm d s alpha = Raise e)
      <-> (flt alpha f0 = true \/ flt f1 alpha = true))
  /\ (forall d s,
      hybrid_score_norm d s f_minus_0_01
        = Raise (ValueError [FLit "Alpha must be between 0 and 1"])
      /\ hybrid_score_norm d s f_1_01
        = Raise (ValueError [FLit "Alpha must be between 0 and 1"])
      /\ (exists r, hybrid_score_norm d s f0 = Ok r)
      /\ (exists r, hybrid_score_norm d s f1 = Ok r)).
Proof.
  assert (G : forall d s alpha,
             (exists e, hybrid_score_norm d s alpha = Raise e)
             <-> (flt alpha f0 = true \/ flt f1 alpha = true)).
  { intros d s alpha. unfold hybrid_score_norm.
    destruct (flt alpha f0) eqn:E0; destruct (flt f1 alpha) eqn:E1; cbn [orb];
      split; intros H; try (left; reflexivity); try (right; reflexivity);
      try (eexists; reflexivity).
    - destruct H as [e H]. discriminate H.
    - destruct H as [H | H]; discriminate H. }
  split; [ | split; [ exact G | ] ].
  - intros d s alpha. split.
    + intros H. apply (G d s alpha). eexists; exact H.
    + intros H. apply (G d s alpha) in H. destruct H as [e H].
      unfold hybrid_score_norm in *.
      destruct (flt alpha f0 || flt f1 alpha); [ reflexivity | discriminate H ].
  - intros d s. unfold hybrid_score_norm.
    replace (flt f_minus_0_01 f0) with true by (vm_compute; reflexivity).
    replace (flt f1 f_1_01) with true by (vm_compute; reflexivity).
    replace (flt f0 f0) with false by (vm_compute; reflexivity).
    replace (flt f1 f0) with false by (vm_compute; reflexivity).
    replace (flt f1 f0) with false by (vm_compute; reflexivity).
    replace (flt f1 f1) with false by (vm_compute; reflexivity).
    rewrite orb_true_r. cbn [orb].
    repeat split; eexists; reflexivity.
Qed.

(** ** The gateway: [similarity_search] *)

(** C10: with no sparse query vector, the dense query vector goes to the
    index unchanged and [alpha] plays no part: two calls that differ only
    in [alpha] behave alike, and the one index query carries the given
    embedding and no sparse vector. *)
Theorem similarity_search_dense_only (P : Provider) (qe : list float) (ns : string)
    (k : Z) (alpha alpha' : float) (t : Trace) :
  similarity_search P qe ns k None alpha t = similarity_search P qe ns k None alpha' t
  /\ snd (similarity_search P qe ns k None alpha t) =
       if String.eqb ns "" then t
       else (t ++ [EvIndexQuery {| qp_namespace := ns; qp_top_k := k;
                                   qp_include_metadata := true; qp_vector := qe;
                                   qp_sparse_vector := None |}])%list.
Proof.
  unfold similarity_search. split; [ reflexivity | ].
  destruct (String.eqb ns ""); reflexivity.
Qed.

(** What the gateway does with a sparse vector, for a namespace other than
    the empty string and [alpha] within range. *)
Lemma similarity_search_hybrid (P : Provider) (qe : list float) (ns : string) (k : Z)
    (sv : SparseVector) (alpha : float) (t : Trace) :
  ns <> "" -> fle f0 alpha = true -> fle alpha f1 = true ->
  let params :=
    {| qp_namespace := ns; qp_top_k := k; qp_include_metadata := true;
       qp_vector := map (fun x => fmul x alpha) qe;
       qp_sparse_vector :=
         Some {| indices := indices sv;
                 values := map (fun x => fmul x (fsub f1 alpha)) (values sv) |} |} in
  similarity_search P qe ns k (Some sv) alpha t
    = (index_query P t params, (t ++ [EvIndexQuery params])%list).
Proof.
  intros Hns H0 H1 params. unfold similarity_search.
  apply String.eqb_neq in Hns. rewrite Hns.
  unfold bind, lift. rewrite (hybrid_score_norm_ok qe sv alpha H0 H1).
  reflexivity.
Qed.

(** ** The orchestrator: [query] *)

Lemma query_namespace_absent (P : Provider) (q ns : string) (k : Z) (alpha : float)
    (t : Trace) (avail : list string) :
  index_describe_stats P t = Ok avail -> str_in ns avail = false ->
  query P q ns k alpha t =
    (Raise (ValueError [FLit "Namespace '"; FStr ns;
                        FLit "' does not exist. Available namespaces: ";
                        FStrList avail]),
     (t ++ [EvDescribeStats])%list).
Proof.
  intros Hs Hin. unfold query, bind, list_namespaces, call.
  rewrite Hs, Hin. reflexivity.
Qed.

Ltac run_query_prefix Hs Hin He Hq :=
  unfold query, bind, list_namespaces, call;
  rewrite Hs, Hin; cbn [negb];
  rewrite He; rewrite <- app_assoc; cbn [app];
  rewrite Hq; unfold ret at 1; rewrite <- app_assoc; cbn [app].

(** The run of [query] up to the call of the index: the raw outputs of the
    two encoders reach the gateway, which scales them once. *)
Lemma query_trace (P : Provider) (q ns : string) (k : Z) (alpha : float)
    (t : Trace) (avail : list string) (emb : list float) (sv : SparseVector)
    (others : list SparseVector) :
  index_describe_stats P t = Ok avail -> str_in ns avail = true -> ns <> "" ->
  embed_query P (t ++ [EvDescribeStats]) q = Ok emb ->
  encode_queries P (t ++ [EvDescribeStats; EvEmbedQuery q]) [q] = Ok (sv :: others) ->
  fle f0 alpha = true -> fle alpha f1 = true ->
  exists later,
    snd (query P q ns k alpha t) =
      t ++ [EvDescribeStats; EvEmbedQuery q; EvEncodeQueries [q];
            EvIndexQuery
              {| qp_namespace := ns; qp_top_k := k; qp_include_metadata := true;
                 qp_vector := map (fun x => fmul x alpha) emb;
                 qp_sparse_vector :=
                   Some {| indices := indices sv;
                           values := map (fun x => fmul x (fsub f1 alpha))
                                         (values sv) |} |}]
        ++ later
    /\ forallb (fun e => negb (is_index_query e)) later = true.
Proof.
  intros Hs Hin Hns He Hq H0 H1.
  run_query_prefix Hs Hin He Hq.
  rewrite (similarity_search_hybrid P emb ns k sv alpha _ Hns H0 H1).
  cbv zeta.
  match goal with |- context [index_query P ?t3 ?params] =>
    destruct (index_query P t3 params) as [results | e] end.
  2:{ exists []. cbn [snd]. rewrite <- !app_assoc. cbn [app]. split; reflexivity. }
  destruct results as [ | m ms ].
  { exists []. unfold raise. cbn [snd]. rewrite <- !app_assoc. split; reflexivity. }
  unfold lift, raise, ret.
  destruct (map_result match_text (m :: ms)) as [texts | e].
  2:{ exists []. cbn [snd]. rewrite <- !app_assoc. split; reflexivity. }
  match goal with |- context [llm_invoke P ?t4 ?msgs] =>
    exists [EvLLM msgs]; destruct (llm_invoke P t4 msgs) as [resp | e] end.
  - destruct (map_result _ (m :: ms)) as [srcs | e']; cbn [snd];
      rewrite <- !app_assoc; split; reflexivity.
  - cbn [snd]. rewrite <- !app_assoc. split; reflexivity.
Qed.

Lemma query_no_results (P : Provider) (q ns : string) (k : Z) (alpha : float)
    (t : Trace) (avail : list string) (emb : list float) (sv : SparseVector)
    (others : list SparseVector) :
  index_describe_stats P t = Ok avail -> str_in ns avail = true -> ns <> "" ->
  embed_query P (t ++ [EvDescribeStats]) q = Ok emb ->
  encode_queries P (t ++ [EvDescribeStats; EvEmbedQuery q]) [q] = Ok (sv :: others) ->
  fle f0 alpha = true -> fle alpha f1 = true ->
  index_query P (t ++ [EvDescribeStats; EvEmbedQuery q; EvEncodeQueries [q]])
    {| qp_namespace := ns; qp_top_k := k; qp_include_metadata := true;
       qp_vector := map (fun x => fmul x alpha) emb;
       qp_sparse_vector :=
         Some {| indices := indices sv;
                 values := map (fun x => fmul x (fsub f1 alpha)) (values sv) |} |}
    = Ok [] ->
  fst (query P q ns k alpha t) =
    Raise (ValueError [FLit "No results found in namespace '"; FStr ns; FLit "'"]).
Proof.
  intros Hs Hin Hns He Hq H0 H1 Hr.
  run_query_prefix Hs Hin He Hq.
  rewrite (similarity_search_hybrid P emb ns k sv alpha _ Hns H0 H1).
  cbv zeta. rewrite Hr. reflexivity.
Qed.

(** C2 (as the code has it): the orchestrator hands the raw outputs of the
    embedding model and of the sparse encoder to the gateway, and it is
    the gateway that applies [hybrid_score_norm]; on the way from [query]
    to the index the vectors are scaled exactly once, and one index query
    is issued. *)
Theorem query_normalizes_once_in_gateway (P : Provider) (q ns : string) (k : Z)
    (alpha : float) (t : Trace) (avail : list string) (emb : list float)
    (sv : SparseVector) (others : list SparseVector) :
  index_describe_stats P t = Ok avail -> str_in ns avail = true -> ns <> "" ->
  embed_query P (t ++ [EvDescribeStats]) q = Ok emb ->
  encode_queries P (t ++ [EvDescribeStats; EvEmbedQuery q]) [q] = Ok (sv :: others) ->
  fle f0 alpha = true -> fle alpha f1 = true ->
  (forall t', similarity_search P emb ns k (Some sv) alpha t'
              = (index_query P t' (hybrid_params ns k alpha emb sv),
                 t' ++ [EvIndexQuery (hybrid_params ns k alpha emb sv)]))
  /\ exists later,
       snd (query P q ns k alpha t) =
         t ++ [EvDescribeStats; EvEmbedQuery q; EvEncodeQueries [q];
               EvIndexQuery (hybrid_params ns k alpha emb sv)] ++ later
       /\ forallb (fun e => negb (is_index_query e)) later = true.
Proof.
  intros Hs Hin Hns He Hq H0 H1. split.
  - intros t'. apply (similarity_search_hybrid P emb ns k sv alpha t' Hns H0 H1).
  - apply (query_trace P q ns k alpha t avail emb sv others); assumption.
Qed.

Lemma query_normalizes_once_in_gateway_witness :
  (forall t', similarity_search Demo.healthy Demo.dense1 "ns" 1 (Some Demo.sparse1) f_half t'
              = (index_query Demo.healthy t'
                   (hybrid_params "ns" 1 f_half Demo.dense1 Demo.sparse1),
                 t' ++ [EvIndexQuery (hybrid_params "ns" 1 f_half Demo.dense1 Demo.sparse1)]))
  /\ exists later,
       snd (query Demo.healthy Demo.question "ns" 1 f_half Demo.one_record) =
         Demo.one_record
           ++ [EvDescribeStats; EvEmbedQuery Demo.question;
               EvEncodeQueries [Demo.question];
               EvIndexQuery (hybrid_params "ns" 1 f_half Demo.dense1 Demo.sparse1)]
           ++ later
       /\ forallb (fun e => negb (is_index_query e)) later = true.
Proof.
  apply (query_normalizes_once_in_gateway Demo.healthy Demo.question "ns" 1 f_half
           Demo.one_record ["ns"] Demo.dense1 Demo.sparse1 []);
    try (vm_compute; reflexivity).
  discriminate.
Defined.

(** C2, refuted as stated: given a sparse vector, the gateway does not
    forward the vectors it received; what reaches the index differs from
    them. *)
Lemma similarity_search_scales_its_arguments :
  snd (similarity_search Demo.healthy Demo.dense1 "ns" 1 (Some Demo.sparse1) f_half [])
    <> [EvIndexQuery (raw_params "ns" 1 Demo.dense1 (Some Demo.sparse1))]
  /\ snd (similarity_search Demo.healthy Demo.dense1 "ns" 1 (Some Demo.sparse1) f_half [])
    = [EvIndexQuery (hybrid_params "ns" 1 f_half Demo.dense1 Demo.sparse1)].
Proof.
  split.
  - vm_compute. intros H. discriminate H.
  - vm_compute. reflexivity.
Qed.

(** C5: a query against a namespace that [list_namespaces()] does not
    return fails with the [ValueError] that carries the requested
    namespace and the available ones; the only call made is the listing
    (no embedding, no index query), and the handler answers 404, not 500. *)
Theorem query_missing_namespace (P : Provider) (q ns : string) (k : Z) (alpha : float)
    (t : Trace) (avail : list string) :
  index_describe_stats P t = Ok avail -> str_in ns avail = false ->
  query P q ns k alpha t =
    (Raise (ValueError [FLit "Namespace '"; FStr ns;
                        FLit "' does not exist. Available namespaces: ";
                        FStrList avail]),
     t ++ [EvDescribeStats])
  /\ query_document P {| req_query := q; req_k := k; req_namespace := ns;
                         req_alpha := alpha |} t =
    (Raise (HTTPException 404
              [FLit "Namespace '"; FStr ns;
               FLit "' does not exist. Available namespaces: "; FStrList avail]),
     t ++ [EvDescribeStats]).
Proof.
  intros Hs Hin.
  pose proof (query_namespace_absent P q ns k alpha t avail Hs Hin) as Hq.
  split; [ exact Hq | ].
  unfold query_document. cbn [req_query req_k req_namespace req_alpha].
  rewrite Hq. reflexivity.
Qed.

Lemma query_missing_namespace_witness :
  query Demo.healthy Demo.question "never_ingested" 3 f_half Demo.one_record =
    (Raise (ValueError [FLit "Namespace '"; FStr "never_ingested";
                        FLit "' does not exist. Available namespaces: ";
                        FStrList ["ns"]]),
     Demo.one_record ++ [EvDescribeStats])
  /\ query_document Demo.healthy
       {| req_query := Demo.question; req_k := 3; req_namespace := "never_ingested";
          req_alpha := f_half |} Demo.one_record =
    (Raise (HTTPException 404
              [FLit "Namespace '"; FStr "never_ingested";
               FLit "' does not exist. Available namespaces: "; FStrList ["ns"]]),
     Demo.one_record ++ [EvDescribeStats]).
Proof.
  apply (query_missing_namespace Demo.healthy Demo.question "never_ingested" 3 f_half
           Demo.one_record ["ns"]); vm_compute; reflexivity.
Defined.

(** C6 (as the code has it): a query against an existing namespace for
    which the index returns no match fails with a [ValueError] whose text
    is "No results found in namespace '...'"; the exception class and the
    status 404 of the handler are those of the missing-namespace failure,
    and only the text of the message tells the two apart. *)
Theorem query_no_results_found (P : Provider) (q ns : string) (k : Z) (alpha : float)
    (t : Trace) (avail : list string) (emb : list float) (sv : SparseVector)
    (others : list SparseVector) :
  index_describe_stats P t = Ok avail -> str_in ns avail = true -> ns <> "" ->
  embed_query P (t ++ [EvDescribeStats]) q = Ok emb ->
  encode_queries P (t ++ [EvDescribeStats; EvEmbedQuery q]) [q] = Ok (sv :: others) ->
  fle f0 alpha = true -> fle alpha f1 = true ->
  index_query P (t ++ [EvDescribeStats; EvEmbedQuery q; EvEncodeQueries [q]])
    (hybrid_params ns k alpha emb sv) = Ok [] ->
  let no_results := [FLit "No results found in namespace '"; FStr ns; FLit "'"] in
  fst (query P q ns k alpha t) = Raise (ValueError no_results)
  /\ fst (query_document P {| req_query := q; req_k := k; req_namespace := ns;
                              req_alpha := alpha |} t)
     = Raise (HTTPException 404 no_results)
  /\ (forall ns' avail',
        let missing := [FLit "Namespace '"; FStr ns';
                        FLit "' does not exist. Available namespaces: ";
                        FStrList avail'] in
        exc_class (ValueError no_results) = exc_class (ValueError missing)
        /\ no_results <> missing).
Proof.
  intros Hs Hin Hns He Hq H0 H1 Hr no_results.
  pose proof (query_no_results P q ns k alpha t avail emb sv others
                Hs Hin Hns He Hq H0 H1 Hr) as Hfst.
  split; [ exact Hfst | split ].
  - unfold query_document. cbn [req_query req_k req_namespace req_alpha].
    destruct (query P q ns k alpha t) as [r t'] eqn:E. cbn [fst] in *.
    rewrite Hfst. reflexivity.
  - intros ns' avail' missing. split; [ reflexivity | ].
    unfold no_results, missing. intros H. discriminate H.
Qed.

Lemma query_no_results_found_witness :
  let no_results := [FLit "No results found in namespace '"; FStr "ns"; FLit "'"] in
  fst (query Demo.unrelated Demo.question "ns" 3 f_half Demo.one_record)
    = Raise (ValueError no_results)
  /\ fst (query_document Demo.unrelated
            {| req_query := Demo.question; req_k := 3; req_namespace := "ns";
               req_alpha := f_half |} Demo.one_record)
     = Raise (HTTPException 404 no_results)
  /\ (forall ns' avail',
        let missing := [FLit "Namespace '"; FStr ns';
                        FLit "' does not exist. Available namespaces: ";
                        FStrList avail'] in
        exc_class (ValueError no_results) = exc_class (ValueError missing)
        /\ no_results <> missing).
Proof.
  apply (query_no_results_found Demo.unrelated Demo.question "ns" 3 f_half
           Demo.one_record ["ns"] Demo.dense1 Demo.sparse1 []);
    try (vm_compute; reflexivity).
  discriminate.
Defined.

(** C6, refuted as stated: the failure for an existing namespace without
    matches and the failure for a missing namespace are of one exception
    class, and the handler answers both with the same status. *)
Lemma no_results_and_missing_namespace_share_a_kind :
  exists e_empty e_missing,
    fst (query Demo.unrelated Demo.question "ns" 3 f_half Demo.one_record)
      = Raise e_empty
    /\ fst (query Demo.unrelated Demo.question "never_ingested" 3 f_half Demo.one_record)
      = Raise e_missing
    /\ exc_class e_empty = exc_class e_missing
    /\ http_status (fst (query_document Demo.unrelated
                           {| req_query := Demo.question; req_k := 3;
                              req_namespace := "ns"; req_alpha := f_half |}
                           Demo.one_record))
       = http_status (fst (query_document Demo.unrelated
                             {| req_query := Demo.question; req_k := 3;
                                req_namespace := "never_ingested";
                                req_alpha := f_half |}
                             Demo.one_record)).
Proof.
  exists (ValueError [FLit "No results found in namespace '"; FStr "ns"; FLit "'"]).
  exists (ValueError [FLit "Namespace '"; FStr "never_ingested";
                      FLit "' does not exist. Available namespaces: ";
                      FStrList ["ns"]]).
  repeat split; vm_compute; reflexivity.
Qed.

(** ** Ingestion: assembly of the records *)

Lemma zip3_length {A B C} (la : list A) (lb : list B) (lc : list C) :
  List.length (zip3 la lb lc)
    = Nat.min (List.length la) (Nat.min (List.length lb) (List.length lc)).
Proof.
  revert lb lc. induction la as [ | a la IH ]; intros lb lc; [ reflexivity | ].
  destruct lb as [ | b lb ]; [ reflexivity | ].
  destruct lc as [ | c lc ]; cbn [zip3 List.length].
  - rewrite Nat.min_0_r. reflexivity.
  - rewrite IH. reflexivity.
Qed.

Lemma zip3_nth_error {A B C} (la : list A) (lb : list B) (lc : list C) (i : nat) :
  nth_error (zip3 la lb lc) i =
    match nth_error la i, nth_error lb i, nth_error lc i with
    | Some a, Some b, Some c => Some (a, b, c)
    | _, _, _ => None
    end.
Proof.
  revert lb lc i. induction la as [ | a la IH ]; intros lb lc i.
  - destruct i; reflexivity.
  - destruct lb as [ | b lb ].
    + destruct i; cbn; [ reflexivity | destruct (nth_error la i); reflexivity ].
    + destruct lc as [ | c lc ].
      * destruct i; cbn; [ reflexivity | ].
        destruct (nth_error la i); [ | reflexivity ].
        destruct (nth_error lb i); reflexivity.
      * destruct i; cbn; [ reflexivity | apply IH ].
Qed.

Lemma enumerate_from_length {A} (l : list A) (j : nat) :
  List.length (enumerate_from j l) = List.length l.
Proof.
  revert j. induction l as [ | x l IH ]; intros j; cbn; [ | rewrite IH ]; reflexivity.
Qed.

Lemma enumerate_from_nth_error {A} (l : list A) (j i : nat) :
  nth_error (enumerate_from j l) i =
    match nth_error l i with
    | Some x => Some ((j + i)%nat, x)
    | None => None
    end.
Proof.
  revert j i. induction l as [ | x l IH ]; intros j i.
  - destruct i; reflexivity.
  - destruct i; cbn.
    + rewrite Nat.add_0_r. reflexivity.
    + rewrite IH. rewrite Nat.add_succ_r. reflexivity.
Qed.

(** C8 (as the code has it): the assembly zips chunks, dense vectors and
    sparse vectors by position and stops at the shortest of the three,
    without an error; record [i] pairs chunk [i] with dense vector [i] and
    sparse vector [i] under the id [namespace#chunk(i+1)], and exists only
    where all three sequences have a position [i]. *)
Theorem prepare_vectors_zips (ns : string) (chunks : list Document)
    (embeddings : list (list float)) (sparse_vectors : list SparseVector) (i : nat) :
  List.length (prepare_vectors ns chunks embeddings sparse_vectors)
    = Nat.min (List.length chunks)
        (Nat.min (List.length embeddings) (List.length sparse_vectors))
  /\ nth_error (prepare_vectors ns chunks embeddings sparse_vectors) i =
       match nth_error chunks i, nth_error embeddings i, nth_error sparse_vectors i with
       | Some doc, Some embedding, Some sparse_vector =>
           Some {| vec_id := (ns ++ "#chunk" ++ str_of_nat (i + 1))%string;
                   vec_values := embedding;
                   vec_sparse_values := sparse_vector;
                   vec_metadata :=
                     {| meta_text := page_content doc;
                        meta_page := dict_get (metadata doc) "page" VNone;
                        meta_page_label :=
                          dict_get (metadata doc) "page_label" VNone |} |}
       | _, _, _ => None
       end.
Proof.
  unfold prepare_vectors, enumerate. split.
  - rewrite length_map, enumerate_from_length. apply zip3_length.
  - rewrite nth_error_map, enumerate_from_nth_error, zip3_nth_error.
    destruct (nth_error chunks i) as [ doc | ]; [ | reflexivity ].
    destruct (nth_error embeddings i) as [ emb | ]; [ | reflexivity ].
    destruct (nth_error sparse_vectors i) as [ sv | ]; reflexivity.
Qed.

(** C8, refuted as stated: two chunks with one dense vector and two sparse
    vectors are ingested without an error, and one record is written. *)
Lemma process_document_zips_to_shortest :
  let P := Demo.provider [Demo.paris; Demo.berlin] [Demo.dense1]
             [Demo.sparse1; Demo.sparse1] None true in
  fst (process_document P Demo.settings "doc.pdf" "ns" []) = Ok tt
  /\ filter is_upsert (snd (process_document P Demo.settings "doc.pdf" "ns" []))
     = [EvUpsert (prepare_vectors "ns" [Demo.paris] [Demo.dense1] [Demo.sparse1]) "ns"].
Proof.
  split; vm_compute; reflexivity.
Qed.

(** ** The gateway: [upload_vectors] *)

(** C9 (as the code has it): with an empty namespace and at least one
    record, [upload_vectors] fails with the [ValueError] of its guard and
    issues no call to the index. *)
Theorem upload_vectors_empty_namespace (P : Provider) (vectors : list Vector)
    (batch_size : Z) (t : Trace) :
  vectors <> [] ->
  upload_vectors P vectors "" batch_size t =
    (Raise (ValueError [FLit "Namespace is required for uploading vectors"]), t).
Proof.
  intros Hne. unfold upload_vectors.
  destruct vectors as [ | v vs ]; [ contradiction Hne; reflexivity | reflexivity ].
Qed.

Lemma upload_vectors_empty_namespace_witness :
  upload_vectors Demo.healthy (Demo.records 3) "" 50 [] =
    (Raise (ValueError [FLit "Namespace is required for uploading vectors"]), []).
Proof.
  apply (upload_vectors_empty_namespace Demo.healthy (Demo.records 3) 50 []).
  vm_compute. intros H. discriminate H.
Defined.

(** C9, refuted as stated: with no record to upload, the empty namespace
    is accepted and the call returns without an error. *)
Lemma upload_vectors_nothing_to_upload :
  upload_vectors Demo.healthy [] "" 50 [] = (Ok tt, []).
Proof. reflexivity. Qed.

(** *** [range] and slices *)

Lemma ceil_div_step (m s : Z) :
  0 < s -> 0 < m -> ceil_div m s = 1 + ceil_div (Z.max 0 (m - s)) s.
Proof.
  intros Hs Hm. unfold ceil_div.
  destruct (Z.le_gt_cases s m) as [Hle | Hgt].
  - rewrite Z.max_r by lia.
    replace (- (m - s)) with (- m + 1 * s) by lia.
    rewrite Z.div_add by lia. lia.
  - rewrite Z.max_l by lia. cbn [Z.opp Z.div].
    assert (H : - m / s = -1).
    { symmetry. apply (Z.div_unique_pos (- m) s (-1) (s - m)); lia. }
    rewrite H. reflexivity.
Qed.

Lemma py_slice_window {A} (l : list A) (i s : Z) :
  0 <= i -> 0 < s ->
  py_slice l i (i + s) = firstn (Z.to_nat s) (skipn (Z.to_nat i) l).
Proof.
  intros Hi Hs. unfold py_slice, clamp_index, len.
  replace (i <? 0) with false by (symmetry; apply Z.ltb_ge; lia).
  replace (i + s <? 0) with false by (symmetry; apply Z.ltb_ge; lia).
  set (n := List.length l).
  destruct (Z.le_gt_cases i (Z.of_nat n)) as [Hin | Hin].
  - rewrite (Z.min_l i) by lia.
    destruct (Z.le_gt_cases (i + s) (Z.of_nat n)) as [Hj | Hj].
    + rewrite Z.min_l by lia. f_equal. lia.
    + rewrite Z.min_r by lia.
      rewrite !firstn_all2; try reflexivity; rewrite length_skipn; fold n; lia.
  - rewrite (Z.min_r i) by lia. rewrite Z.min_r by lia.
    rewrite Nat2Z.id, Nat.sub_diag. cbn [firstn].
    rewrite (skipn_all2 l) by (fold n; lia).
    rewrite firstn_nil. reflexivity.
Qed.

(** The slices taken along [range(i, len(l), s)] are the pieces of the
    rest of the list from position [i]. *)
Lemma slices_are_pieces {A} (l : list A) (s : Z) (fuel : nat) (i : Z) :
  0 < s -> 0 <= i ->
  map (fun i => py_slice l i (i + s)) (py_range_aux fuel i (len l) s)
    = pieces fuel (Z.to_nat s) (skipn (Z.to_nat i) l).
Proof.
  intros Hs. revert i. induction fuel as [ | fuel IH ]; intros i Hi; [ reflexivity | ].
  cbn [py_range_aux pieces].
  replace (0 <? s) with true by (symmetry; apply Z.ltb_lt; lia).
  unfold len.
  destruct (i <? Z.of_nat (List.length l)) eqn:E.
  - apply Z.ltb_lt in E.
    destruct (skipn (Z.to_nat i) l) as [ | x rest ] eqn:Es.
    + apply (f_equal (@List.length A)) in Es. rewrite length_skipn in Es.
      cbn [List.length] in Es. lia.
    + rewrite <- Es. cbn [map]. f_equal.
      * apply py_slice_window; lia.
      * fold (len l). rewrite IH by lia. rewrite skipn_skipn.
        f_equal. f_equal. lia.
  - apply Z.ltb_ge in E. rewrite skipn_all2 by lia. reflexivity.
Qed.

Lemma batches_are_pieces (vectors : list Vector) (s : Z) :
  0 < s ->
  batches vectors s = pieces (List.length vectors) (Z.to_nat s) vectors.
Proof.
  intros Hs. unfold batches, py_range.
  rewrite (slices_are_pieces vectors s _ 0 Hs (Z.le_refl 0)).
  cbn [Z.to_nat skipn]. f_equal. unfold len. lia.
Qed.

(** *** Pieces of a list *)

Lemma pieces_concat {A} (size fuel : nat) (l : list A) :
  (1 <= size)%nat -> (List.length l <= fuel)%nat ->
  List.concat (pieces fuel size l) = l.
Proof.
  intros Hs. revert l. induction fuel as [ | fuel IH ]; intros l Hl.
  - destruct l; [ reflexivity | cbn in Hl; lia ].
  - destruct l as [ | x l ]; [ reflexivity | ].
    cbn [pieces List.concat]. rewrite IH.
    + apply firstn_skipn.
    + rewrite length_skipn. cbn [List.length] in *. lia.
Qed.

Lemma pieces_bounded {A} (size fuel : nat) (l : list A) :
  (1 <= size)%nat ->
  Forall (fun b => (1 <= List.length b <= size)%nat) (pieces fuel size l).
Proof.
  intros Hs. revert l. induction fuel as [ | fuel IH ]; intros l; [ constructor | ].
  destruct l as [ | x l ]; [ constructor | ].
  cbn [pieces]. constructor; [ | apply IH ].
  rewrite length_firstn. cbn [List.length]. lia.
Qed.

Lemma pieces_sizes {A} (size fuel : nat) (l : list A) :
  map (@List.length A) (pieces fuel size l) = piece_sizes fuel size (List.length l).
Proof.
  revert l. induction fuel as [ | fuel IH ]; intros l; [ reflexivity | ].
  destruct l as [ | x l ]; [ reflexivity | ].
  cbn [pieces map piece_sizes List.length].
  rewrite IH, length_firstn, length_skipn. reflexivity.
Qed.

Lemma pieces_count {A} (size fuel : nat) (l : list A) :
  (1 <= size)%nat -> (List.length l <= fuel)%nat ->
  Z.of_nat (List.length (pieces fuel size l)) = ceil_div (len l) (Z.of_nat size).
Proof.
  intros Hs. revert l. induction fuel as [ | fuel IH ]; intros l Hl.
  - destruct l; [ reflexivity | cbn in Hl; lia ].
  - destruct l as [ | x l ]; [ reflexivity | ].
    cbn [pieces]. rewrite (ceil_div_step (len (x :: l)) (Z.of_nat size));
      [ | lia | unfold len; cbn [List.length]; lia ].
    cbn [List.length]. rewrite Nat2Z.inj_succ, IH.
    + unfold len. rewrite length_skipn. f_equal.
      replace (Z.of_nat (List.length (x :: l) - size))
        with (Z.max 0 (Z.of_nat (List.length (x :: l)) - Z.of_nat size)) by lia.
      lia.
    + rewrite length_skipn. cbn [List.length] in *. lia.
Qed.

(** *** The upload loop *)

Lemma for_each_map {A B} (f : A -> B) (body : B -> M unit) (l : list A) (t : Trace) :
  for_each (map f l) body t = for_each l (fun x => body (f x)) t.
Proof.
  revert t. induction l as [ | x l IH ]; intros t; [ reflexivity | ].
  cbn [map for_each]. unfold bind.
  destruct (body (f x) t) as [[ [] | e ] t']; [ apply IH | reflexivity ].
Qed.

(** With records to upload, a namespace and a batch size other than zero,
    [upload_vectors] is the loop of upserts over [batches]. *)
Lemma upload_vectors_loop (P : Provider) (vectors : list Vector) (ns : string)
    (batch_size : Z) (t : Trace) :
  vectors <> [] -> ns <> "" -> batch_size <> 0 ->
  upload_vectors P vectors ns batch_size t =
    for_each (batches vectors batch_size)
      (fun b => call (EvUpsert b ns) (fun t => index_upsert P t b ns)) t.
Proof.
  intros Hv Hns Hb. unfold upload_vectors, batches.
  destruct vectors as [ | v vs ]; [ contradiction Hv; reflexivity | ].
  apply String.eqb_neq in Hns. rewrite Hns.
  apply Z.eqb_neq in Hb. rewrite Hb.
  symmetry. apply for_each_map.
Qed.

Lemma upsert_loop_cons (P : Provider) (ns : string) (b : list Vector)
    (bl : list (list Vector)) (t : Trace) :
  for_each (b :: bl) (fun b => call (EvUpsert b ns) (fun t => index_upsert P t b ns)) t
    = match index_upsert P t b ns with
      | Ok _ => for_each bl (fun b => call (EvUpsert b ns)
                                        (fun t => index_upsert P t b ns))
                  (t ++ [EvUpsert b ns])
      | Raise e => (Raise e, t ++ [EvUpsert b ns])
      end.
Proof.
  cbn [for_each]. unfold bind, call.
  destruct (index_upsert P t b ns); reflexivity.
Qed.

(** The loop issues the batches in order, one call each, and stops at the
    first call the index refuses; [k] calls are made in all. *)
Lemma upsert_loop_spec (P : Provider) (ns : string) (bl : list (list Vector)) (t : Trace) :
  let run := for_each bl (fun b => call (EvUpsert b ns)
                                     (fun t => index_upsert P t b ns)) t in
  exists k : nat,
    (k <= List.length bl)%nat
    /\ snd run = t ++ upsert_events ns (firstn k bl)
    /\ (forall j b, (j < k)%nat -> nth_error bl j = Some b ->
          index_upsert P (t ++ upsert_events ns (firstn j bl)) b ns
            = if (S j =? k)%nat then fst run else Ok tt)
    /\ (fst run = Ok tt /\ k = List.length bl
        \/ exists e, fst run = Raise e /\ (1 <= k)%nat).
Proof.
  revert t. induction bl as [ | b bl IH ]; intros t run.
  - exists 0%nat. subst run. cbn [for_each ret fst snd firstn List.length].
    split; [ lia | split; [ | split ] ].
    + unfold upsert_events. cbn [map]. rewrite app_nil_r. reflexivity.
    + intros j b' Hj. lia.
    + left. split; reflexivity.
  - subst run. rewrite upsert_loop_cons.
    destruct (index_upsert P t b ns) as [ [] | e ] eqn:Eb.
    + specialize (IH (t ++ [EvUpsert b ns])). cbv zeta in IH.
      destruct IH as (k & Hk & Htr & Hans & Hres).
      exists (S k). cbn [List.length firstn]. split; [ lia | ].
      split; [ | split ].
      * rewrite Htr. unfold upsert_events. cbn [map].
        rewrite <- app_assoc. reflexivity.
      * intros j b' Hj Hnth. destruct j as [ | j ].
        -- cbn in Hnth. injection Hnth as <-.
           cbn [firstn upsert_events map]. rewrite app_nil_r, Eb.
           destruct k as [ | k ]; [ | reflexivity ].
           cbn [Nat.eqb].
           destruct Hres as [[Hok _] | (e & _ & Hk1)]; [ symmetry; exact Hok | lia ].
        -- cbn in Hnth. cbn [firstn upsert_events map].
           specialize (Hans j b' ltac:(lia) Hnth).
           unfold upsert_events in Hans. rewrite <- app_assoc in Hans.
           cbn [app] in Hans. rewrite Hans. reflexivity.
      * destruct Hres as [[Hok Hlen] | (e & He & Hk1)].
        -- left. split; [ exact Hok | lia ].
        -- right. exists e. split; [ exact He | lia ].
    + exists 1%nat. cbn [List.length firstn fst snd]. split; [ lia | ].
      split; [ reflexivity | split ].
      * intros j b' Hj Hnth. assert (j = 0)%nat as -> by lia.
        cbn in Hnth. injection Hnth as <-.
        cbn [firstn upsert_events map Nat.eqb]. rewrite app_nil_r. exact Eb.
      * right. exists e. split; [ reflexivity | lia ].
Qed.

(** C4 (as the code has it): with batch size 50, [upload_vectors] cuts the
    [n] records into [ceil(n/50)] batches of at most 50 records (50, 50,
    20 for 120 records) and upserts them in order, one call per batch;
    it stops at the first call the index refuses, so that the batches
    before it are written and none is sent twice or after it, and the
    exception the caller gets is the one the index raised, as it is. *)
Theorem upload_vectors_batches (P : Provider) (vectors : list Vector) (ns : string)
    (t : Trace) :
  vectors <> [] -> ns <> "" ->
  let bl := batches vectors 50 in
  let run := upload_vectors P vectors ns 50 t in
  Z.of_nat (List.length bl) = ceil_div (len vectors) 50
  /\ Forall (fun b => (1 <= List.length b <= 50)%nat) bl
  /\ List.concat bl = vectors
  /\ (List.length vectors = 120%nat -> map (@List.length Vector) bl = [50; 50; 20]%nat)
  /\ exists k : nat,
       (k <= List.length bl)%nat
       /\ snd run = t ++ upsert_events ns (firstn k bl)
       /\ (forall j b, (j < k)%nat -> nth_error bl j = Some b ->
             index_upsert P (t ++ upsert_events ns (firstn j bl)) b ns
               = if (S j =? k)%nat then fst run else Ok tt)
       /\ (fst run = Ok tt /\ k = List.length bl
           \/ exists e, fst run = Raise e /\ (1 <= k)%nat).
Proof.
  intros Hv Hns bl run.
  assert (Hbl : bl = pieces (List.length vectors) 50 vectors).
  { subst bl. rewrite batches_are_pieces by lia. reflexivity. }
  split; [ | split; [ | split; [ | split ] ] ].
  - rewrite Hbl. apply (pieces_count 50); lia.
  - rewrite Hbl. apply pieces_bounded. lia.
  - rewrite Hbl. apply pieces_concat; lia.
  - intros H120. rewrite Hbl, pieces_sizes, H120. reflexivity.
  - subst run. rewrite (upload_vectors_loop P vectors ns 50 t Hv Hns) by lia.
    apply upsert_loop_spec.
Qed.

Lemma upload_vectors_batches_witness :
  let P := Demo.provider [Demo.paris] [Demo.dense1] [Demo.sparse1] (Some 2%nat) true in
  let bl := batches (Demo.records 120) 50 in
  let run := upload_vectors P (Demo.records 120) "ns" 50 [] in
  Z.of_nat (List.length bl) = ceil_div (len (Demo.records 120)) 50
  /\ Forall (fun b => (1 <= List.length b <= 50)%nat) bl
  /\ List.concat bl = Demo.records 120
  /\ (List.length (Demo.records 120) = 120%nat
      -> map (@List.length Vector) bl = [50; 50; 20]%nat)
  /\ exists k : nat,
       (k <= List.length bl)%nat
       /\ snd run = [] ++ upsert_events "ns" (firstn k bl)
       /\ (forall j b, (j < k)%nat -> nth_error bl j = Some b ->
             index_upsert P ([] ++ upsert_events "ns" (firstn j bl)) b "ns"
               = if (S j =? k)%nat then fst run else Ok tt)
       /\ (fst run = Ok tt /\ k = List.length bl
           \/ exists e, fst run = Raise e /\ (1 <= k)%nat).
Proof.
  apply (upload_vectors_batches
           (Demo.provider [Demo.paris] [Demo.dense1] [Demo.sparse1] (Some 2%nat) true)
           (Demo.records 120) "ns" []).
  - vm_compute. intros H. discriminate H.
  - discriminate.
Defined.

(** The run the specification describes: 120 records, and the index
    refuses the second upsert. *)
Lemma upload_second_batch_refused :
  let P := Demo.provider [Demo.paris] [Demo.dense1] [Demo.sparse1] (Some 2%nat) true in
  upload_vectors P (Demo.records 120) "ns" 50 [] =
    (Raise Demo.boom,
     [EvUpsert (firstn 50 (Demo.records 120)) "ns";
      EvUpsert (firstn 50 (skipn 50 (Demo.records 120))) "ns"])
  /\ map fst (Demo.stored (Some 2%nat)
                (snd (upload_vectors P (Demo.records 120) "ns" 50 [])))
     = repeat "ns" 50.
Proof.
  split; vm_compute; reflexivity.
Qed.

(** C4, refuted as stated: the exception of a failed upload does not tell
    which batch failed.  The index refusing the first upsert and the index
    refusing the second one lead to the same exception. *)
Lemma upload_error_does_not_name_the_batch :
  ~ exists name : PyExc -> nat * Z, error_names_batch name.
Proof.
  intros [name Hname].
  pose (P1 := Demo.provider [Demo.paris] [Demo.dense1] [Demo.sparse1] (Some 1%nat) true).
  pose (P2 := Demo.provider [Demo.paris] [Demo.dense1] [Demo.sparse1] (Some 2%nat) true).
  assert (Hns : "ns" <> "") by discriminate.
  assert (H1 : fst (upload_vectors P1 (Demo.records 120) "ns" 50 []) = Raise Demo.boom)
    by (vm_compute; reflexivity).
  assert (H2 : fst (upload_vectors P2 (Demo.records 120) "ns" 50 []) = Raise Demo.boom)
    by (vm_compute; reflexivity).
  pose proof (Hname P1 (Demo.records 120) "ns" [] Demo.boom Hns H1) as E1.
  pose proof (Hname P2 (Demo.records 120) "ns" [] Demo.boom Hns H2) as E2.
  rewrite E1 in E2. apply (f_equal fst) in E2.
  vm_compute in E2. discriminate E2.
Qed.

(** ** Namespaces as the handlers pass them on *)

(** C7, at the input ["My Book "]: the validator of a query request turns
    it into ["my_book"], while the upload handler and the delete handler
    hand it to the index as it was sent; a document uploaded under that
    name is then not found by a query that names it the same way. *)
Theorem upload_keeps_namespace_as_sent :
  let file := {| filename := "book.pdf"; file_content := "%PDF-1.4" |} in
  let upload := upload_document Demo.healthy Demo.settings (Some file)
                  (Some "My Book ") [] in
  let request := {| req_query := Demo.question; req_k := 3;
                    req_namespace := "my_book"; req_alpha := f_half |} in
  validate_namespace "My Book " = Ok "my_book"
  /\ parse_QueryRequest {| raw_query := Demo.question; raw_k := None;
                           raw_namespace := "My Book "; raw_alpha := None |}
     = Ok request
  /\ fst upload
     = Ok {| message := [FLit "Document processed and uploaded to namespace '";
                         FStr "My Book "; FLit "' successfully"] |}
  /\ filter is_upsert (snd upload)
     = [EvUpsert (prepare_vectors "My Book " [Demo.paris] [Demo.dense1] [Demo.sparse1])
          "My Book "]
  /\ fst (query_document Demo.healthy request (snd upload))
     = Raise (HTTPException 404
                [FLit "Namespace '"; FStr "my_book";
                 FLit "' does not exist. Available namespaces: ";
                 FStrList ["My Book "]])
  /\ snd (router_delete_document Demo.healthy "My Book " [])
     = [EvIndexDelete "My Book "]
  /\ filter is_upsert
       (snd (upload_url Demo.healthy Demo.settings "http://host/book.pdf" "My Book " []))
     = [EvUpsert (prepare_vectors "My Book " [Demo.paris] [Demo.dense1] [Demo.sparse1])
          "My Book "].
Proof.
  repeat split; vm_compute; reflexivity.
Qed.

(** * Further properties of the code *)

(** ** [str.strip] on strings of code points below 256 *)

Lemma lstrip_fixed (s : string) : lstrip (lstrip s) = lstrip s.
Proof.
  induction s as [ | c r IH ]; [ reflexivity | ].
  cbn [lstrip]. destruct (is_space c) eqn:E; [ exact IH | ].
  cbn [lstrip]. rewrite E. reflexivity.
Qed.

Lemma lstrip_empty_iff (s : string) : lstrip s = EmptyString <-> all_space s = true.
Proof.
  induction s as [ | c r IH ]; [ split; reflexivity | ].
  cbn [lstrip all_space]. destruct (is_space c); cbn [andb].
  - exact IH.
  - split; intros H; discriminate H.
Qed.

Lemma rstrip_empty_iff (s : string) : rstrip s = EmptyString <-> all_space s = true.
Proof.
  induction s as [ | c r IH ]; [ split; reflexivity | ].
  cbn [rstrip all_space].
  destruct (rstrip r) as [ | c' r' ] eqn:Er.
  - assert (Hr : all_space r = true) by (apply IH; reflexivity).
    rewrite Hr, andb_true_r. destruct (is_space c); split; intros H; try reflexivity;
      discriminate H.
  - assert (Hr : all_space r = false).
    { destruct (all_space r); [ | reflexivity ].
      assert (H : String c' r' = EmptyString) by (apply IH; reflexivity).
      discriminate H. }
    rewrite Hr, andb_false_r. split; intros H; discriminate H.
Qed.

Lemma rstrip_cons (c : ascii) (r : string) :
  rstrip (String c r)
    = if is_space c && all_space r then EmptyString else String c (rstrip r).
Proof.
  cbn [rstrip]. destruct (rstrip r) as [ | c' r' ] eqn:Er.
  - assert (Hr : all_space r = true) by (apply rstrip_empty_iff; exact Er).
    rewrite Hr, andb_true_r. destruct (is_space c); reflexivity.
  - assert (Hr : all_space r = false).
    { destruct (all_space r) eqn:E; [ | reflexivity ].
      apply rstrip_empty_iff in E. rewrite Er in E. discriminate E. }
    rewrite Hr, andb_false_r. reflexivity.
Qed.

Lemma all_space_rstrip (s : string) : all_space (rstrip s) = all_space s.
Proof.
  induction s as [ | c r IH ]; [ reflexivity | ].
  rewrite rstrip_cons. cbn [all_space].
  destruct (is_space c && all_space r) eqn:E; [ reflexivity | ].
  cbn [all_space]. rewrite IH. exact E.
Qed.

Lemma rstrip_fixed (s : string) : rstrip (rstrip s) = rstrip s.
Proof.
  induction s as [ | c r IH ]; [ reflexivity | ].
  rewrite rstrip_cons.
  destruct (is_space c && all_space r) eqn:E; [ reflexivity | ].
  rewrite rstrip_cons, all_space_rstrip, E, IH. reflexivity.
Qed.

Lemma lstrip_rstrip_fixed (s : string) : lstrip s = s -> lstrip (rstrip s) = rstrip s.
Proof.
  destruct s as [ | c r ]; [ reflexivity | ].
  intros H. rewrite rstrip_cons.
  destruct (is_space c) eqn:E.
  - exfalso. cbn [lstrip] in H. rewrite E in H.
    assert (Hl : (String.length (lstrip r) <= String.length r)%nat).
    { clear. induction r as [ | c r IH ]; [ apply Nat.le_refl | ].
      cbn [lstrip]. destruct (is_space c); cbn [String.length]; lia. }
    rewrite H in Hl. cbn [String.length] in Hl. lia.
  - cbn [andb lstrip]. rewrite E. reflexivity.
Qed.

Lemma strip_fixed (s : string) : strip (strip s) = strip s.
Proof.
  unfold strip.
  rewrite (lstrip_rstrip_fixed (lstrip s) (lstrip_fixed s)).
  apply rstrip_fixed.
Qed.

Lemma strip_empty_iff (s : string) : strip s = EmptyString <-> all_space s = true.
Proof.
  unfold strip. rewrite rstrip_empty_iff.
  induction s as [ | c r IH ]; [ split; reflexivity | ].
  cbn [lstrip all_space]. destruct (is_space c) eqn:E; cbn [andb].
  - exact IH.
  - cbn [all_space]. rewrite E. split; intros H; discriminate H.
Qed.

Lemma lstrip_strip (s : string) : lstrip (strip s) = strip s.
Proof. unfold strip. apply lstrip_rstrip_fixed, lstrip_fixed. Qed.

Lemma rstrip_strip (s : string) : rstrip (strip s) = strip s.
Proof. unfold strip. apply rstrip_fixed. Qed.

(** ** Character maps and [strip] *)

Lemma lower_is_smap (s : string) : lower s = smap lower_char s.
Proof. induction s as [ | c r IH ]; cbn; [ | rewrite IH ]; reflexivity. Qed.

Lemma replace_char_is_smap (a b : ascii) (s : string) :
  replace_char a b s = smap (fun c => if Ascii.eqb c a then b else c) s.
Proof. induction s as [ | c r IH ]; cbn; [ | rewrite IH ]; reflexivity. Qed.

Lemma smap_length (f : ascii -> ascii) (s : string) :
  String.length (smap f s) = String.length s.
Proof. induction s as [ | c r IH ]; cbn; [ | rewrite IH ]; reflexivity. Qed.

Lemma strip_length (s : string) : (String.length (strip s) <= String.length s)%nat.
Proof.
  unfold strip.
  assert (Hr : forall x, (String.length (rstrip x) <= String.length x)%nat).
  { induction x as [ | c r IH ]; [ apply Nat.le_refl | ].
    rewrite rstrip_cons. destruct (is_space c && all_space r); cbn [String.length]; lia. }
  assert (Hl : (String.length (lstrip s) <= String.length s)%nat).
  { induction s as [ | c r IH ]; [ apply Nat.le_refl | ].
    cbn [lstrip]. destruct (is_space c); cbn [String.length]; lia. }
  specialize (Hr (lstrip s)). lia.
Qed.

Section SpaceRespectingMap.

Variable f : ascii -> ascii.
Hypothesis f_space : forall c, is_space (f c) = true -> is_space c = true.

Lemma all_space_smap (s : string) : all_space (smap f s) = true -> all_space s = true.
Proof.
  induction s as [ | c r IH ]; [ reflexivity | ].
  cbn [smap all_space]. intros H. apply andb_true_iff in H. destruct H as [Hc Hr].
  rewrite (f_space c Hc), (IH Hr). reflexivity.
Qed.

Lemma lstrip_smap (s : string) : lstrip s = s -> lstrip (smap f s) = smap f s.
Proof.
  destruct s as [ | c r ]; [ reflexivity | ].
  intros H. cbn [smap lstrip].
  destruct (is_space (f c)) eqn:E; [ | reflexivity ].
  exfalso. apply f_space in E. cbn [lstrip] in H. rewrite E in H.
  assert (Hl : (String.length (lstrip r) <= String.length r)%nat).
  { clear. induction r as [ | c r IH ]; [ apply Nat.le_refl | ].
    cbn [lstrip]. destruct (is_space c); cbn [String.length]; lia. }
  rewrite H in Hl. cbn [String.length] in Hl. lia.
Qed.

Lemma rstrip_smap (s : string) : rstrip s = s -> rstrip (smap f s) = smap f s.
Proof.
  induction s as [ | c r IH ]; [ reflexivity | ].
  rewrite rstrip_cons. cbn [smap]. rewrite rstrip_cons.
  destruct (is_space c && all_space r) eqn:E; [ intros H; discriminate H | ].
  intros H. injection H as Hr.
  destruct (is_space (f c) && all_space (smap f r)) eqn:E'.
  - exfalso. apply andb_true_iff in E'. destruct E' as [Hc Hs].
    rewrite (f_space c Hc), (all_space_smap r Hs) in E. discriminate E.
  - rewrite (IH Hr). reflexivity.
Qed.

Lemma strip_smap (s : string) : strip s = s -> strip (smap f s) = smap f s.
Proof.
  intros H.
  assert (Hl : lstrip s = s) by (rewrite <- H; apply lstrip_strip).
  assert (Hr : rstrip s = s) by (rewrite <- H; apply rstrip_strip).
  unfold strip. rewrite (lstrip_smap s Hl). apply rstrip_smap, Hr.
Qed.

End SpaceRespectingMap.

Ltac each_char c := destruct c as [[] [] [] [] [] [] [] []].

Lemma lower_char_space (c : ascii) : is_space (lower_char c) = true -> is_space c = true.
Proof. each_char c; vm_compute; intros H; exact H. Qed.

Lemma underscore_space (c : ascii) :
  is_space (if Ascii.eqb c " " then "_"%char else c) = true -> is_space c = true.
Proof. each_char c; vm_compute; intros H; reflexivity || exact H. Qed.

Lemma lower_char_fixed_after (c : ascii) :
  lower_char (if Ascii.eqb (lower_char c) " " then "_"%char else lower_char c)
    = (if Ascii.eqb (lower_char c) " " then "_"%char else lower_char c).
Proof. each_char c; vm_compute; reflexivity. Qed.

Lemma underscore_fixed (c : ascii) :
  (if Ascii.eqb (if Ascii.eqb c " " then "_"%char else c) " "
   then "_"%char else (if Ascii.eqb c " " then "_"%char else c))
    = (if Ascii.eqb c " " then "_"%char else c).
Proof. each_char c; vm_compute; reflexivity. Qed.

Lemma underscore_no_space (c : ascii) :
  Ascii.eqb (if Ascii.eqb c " " then "_"%char else c) " " = false.
Proof. each_char c; vm_compute; reflexivity. Qed.

(** ** The validators of [QueryRequest] *)

Lemma validate_namespace_ok (v n : string) :
  validate_namespace v = Ok n ->
  strip v <> EmptyString
  /\ n = smap (fun c => if Ascii.eqb c " " then "_"%char else c)
           (smap lower_char (strip v)).
Proof.
  unfold validate_namespace. destruct (String.eqb (strip v) "") eqn:E.
  - intros H. discriminate H.
  - intros H. injection H as <-. apply String.eqb_neq in E. split; [ exact E | ].
    rewrite replace_char_is_smap, lower_is_smap. reflexivity.
Qed.

(** X1: what [validate_namespace] accepts, it turns into a normal form:
    the result is not empty, holds no space, is unchanged by [strip] and
    by [lower], and validating it again returns it as it is. *)
Theorem validate_namespace_normal_form (v n : string) :
  validate_namespace v = Ok n ->
  n <> EmptyString
  /\ contains_char " " n = false
  /\ strip n = n
  /\ lower n = n
  /\ validate_namespace n = Ok n.
Proof.
  intros H. apply validate_namespace_ok in H. destruct H as [Hne Hn].
  set (g := fun c : ascii => if Ascii.eqb c " " then "_"%char else c) in *.
  set (u := strip v) in *.
  assert (Hu : strip u = u) by apply strip_fixed.
  assert (Hlu : strip (smap lower_char u) = smap lower_char u)
    by (apply strip_smap; [ exact lower_char_space | exact Hu ]).
  assert (Hs : strip n = n)
    by (rewrite Hn; apply strip_smap; [ exact underscore_space | exact Hlu ]).
  assert (Hnn : n <> EmptyString).
  { intros E. apply Hne. apply (f_equal String.length) in E.
    rewrite Hn, !smap_length in E. destruct u; [ reflexivity | discriminate E ]. }
  assert (Hc : contains_char " " n = false).
  { rewrite Hn. generalize (smap lower_char u). intros x.
    induction x as [ | c r IH ]; [ reflexivity | ].
    cbn [smap contains_char]. unfold g at 1. rewrite underscore_no_space. exact IH. }
  assert (Hl : lower n = n).
  { rewrite Hn, lower_is_smap. clear. induction u as [ | c r IH ]; [ reflexivity | ].
    cbn [smap]. rewrite IH. f_equal. apply lower_char_fixed_after. }
  assert (Hr : replace_char " " "_" n = n).
  { rewrite replace_char_is_smap. fold g. rewrite Hn.
    generalize (smap lower_char u). intros x.
    induction x as [ | c r IH ]; [ reflexivity | ].
    cbn [smap]. rewrite IH. f_equal. apply underscore_fixed. }
  repeat (split; [ assumption | ]).
  unfold validate_namespace. rewrite Hs.
  apply String.eqb_neq in Hnn. rewrite Hnn, Hl, Hr. reflexivity.
Qed.

Lemma validate_namespace_normal_form_witness :
  "my_book" <> EmptyString
  /\ contains_char " " "my_book" = false
  /\ strip "my_book" = "my_book"
  /\ lower "my_book" = "my_book"
  /\ validate_namespace "my_book" = Ok "my_book".
Proof.
  apply (validate_namespace_normal_form "  My Book " "my_book").
  vm_compute. reflexivity.
Defined.

(** X2: both validators reject exactly the values made of whitespace only
    (the empty string among them), each with its own [ValueError]. *)
Theorem validators_reject_blank (v : string) :
  (validate_query v = Raise (ValueError [FLit "Query cannot be empty or just whitespace"])
   <-> all_space v = true)
  /\ (validate_namespace v
        = Raise (ValueError [FLit "Namespace cannot be empty or just whitespace"])
      <-> all_space v = true).
Proof.
  unfold validate_query, validate_namespace.
  split; (rewrite <- strip_empty_iff;
          destruct (String.eqb (strip v) "") eqn:E;
          [ apply String.eqb_eq in E; split; intros _; [ exact E | reflexivity ]
          | apply String.eqb_neq in E; split; intros H;
            [ discriminate H | contradiction (E H) ] ]).
Qed.

Lemma validate_query_ok (v q : string) :
  validate_query v = Ok q -> q = strip v /\ strip v <> EmptyString.
Proof.
  unfold validate_query. destruct (String.eqb (strip v) "") eqn:E.
  - intros H. discriminate H.
  - intros H. injection H as <-. apply String.eqb_neq in E. split; [ reflexivity | exact E ].
Qed.

(** X3: what [validate_query] accepts is the value stripped at both ends:
    not empty, no longer than the value, and unchanged when validated
    again. *)
Theorem validate_query_strips (v q : string) :
  validate_query v = Ok q ->
  q = strip v
  /\ q <> EmptyString
  /\ (String.length q <= String.length v)%nat
  /\ validate_query q = Ok q.
Proof.
  intros H. destruct (validate_query_ok v q H) as [-> Hne].
  split; [ reflexivity | split; [ exact Hne | split; [ apply strip_length | ] ] ].
  unfold validate_query. rewrite strip_fixed.
  apply String.eqb_neq in Hne. rewrite Hne. reflexivity.
Qed.

Lemma validate_query_strips_witness :
  "why?" = strip "  why? "
  /\ "why?" <> EmptyString
  /\ (String.length "why?" <= String.length "  why? ")%nat
  /\ validate_query "why?" = Ok "why?".
Proof.
  apply (validate_query_strips "  why? " "why?"). vm_compute. reflexivity.
Defined.

(** X4: a request that [QueryRequest] accepts has [k] within 1..100,
    [alpha] within [0,1], the namespace and the query as their validators
    return them, and a query of at most 500 characters; with such an
    [alpha], [hybrid_score_norm] does not raise. *)
Theorem parse_QueryRequest_bounds (raw : RawQueryRequest) (req : QueryRequest) :
  parse_QueryRequest raw = Ok req ->
  1 <= req_k req <= 100
  /\ fle f0 (req_alpha req) = true /\ fle (req_alpha req) f1 = true
  /\ validate_namespace (raw_namespace raw) = Ok (req_namespace req)
  /\ validate_query (raw_query raw) = Ok (req_query req)
  /\ (1 <= String.length (req_query req) <= 500)%nat
  /\ (forall d s, exists r, hybrid_score_norm d s (req_alpha req) = Ok r).
Proof.
  unfold parse_QueryRequest.
  set (k := match raw_k raw with Some k => k | None => 3 end).
  set (a := match raw_alpha raw with Some a => a | None => f_half end).
  destruct ((Z.of_nat (String.length (raw_query raw)) <? 3)
            || (500 <? Z.of_nat (String.length (raw_query raw)))) eqn:El;
    [ destruct ((k <? 1) || (100 <? k)); destruct (validate_namespace (raw_namespace raw));
      destruct (fle f0 a && fle a f1); intros H; discriminate H | ].
  destruct (validate_query (raw_query raw)) as [ q | e ] eqn:Eq;
    [ | destruct ((k <? 1) || (100 <? k)); destruct (validate_namespace (raw_namespace raw));
        destruct (fle f0 a && fle a f1); intros H; discriminate H ].
  destruct ((k <? 1) || (100 <? k)) eqn:Ek;
    [ destruct (validate_namespace (raw_namespace raw));
      destruct (fle f0 a && fle a f1); intros H; discriminate H | ].
  destruct (validate_namespace (raw_namespace raw)) as [ n | e ] eqn:En;
    [ | destruct (fle f0 a && fle a f1); intros H; discriminate H ].
  destruct (fle f0 a && fle a f1) eqn:Ea; [ | intros H; discriminate H ].
  intros H. injection H as <-. cbn [req_k req_alpha req_namespace req_query].
  apply orb_false_iff in Ek. destruct Ek as [Ek1 Ek2].
  apply Z.ltb_ge in Ek1. apply Z.ltb_ge in Ek2.
  apply andb_true_iff in Ea. destruct Ea as [Ea0 Ea1].
  apply orb_false_iff in El. destruct El as [_ El2]. apply Z.ltb_ge in El2.
  destruct (validate_query_ok _ _ Eq) as (Hqs & Hq).
  rewrite <- Hqs in Hq.
  assert (Hlen : (String.length q <= String.length (raw_query raw))%nat)
    by (rewrite Hqs; apply strip_length).
  repeat split; try assumption; try lia.
  - destruct q; [ contradiction Hq; reflexivity | cbn [String.length]; lia ].
  - intros d s. rewrite (hybrid_score_norm_ok d s a Ea0 Ea1). eexists. reflexivity.
Qed.

Lemma parse_QueryRequest_bounds_witness :
  1 <= 3 <= 100
  /\ fle f0 f_half = true /\ fle f_half f1 = true
  /\ validate_namespace "My Book " = Ok "my_book"
  /\ validate_query Demo.question = Ok Demo.question
  /\ (1 <= String.length Demo.question <= 500)%nat
  /\ (forall d s, exists r, hybrid_score_norm d s f_half = Ok r).
Proof.
  apply (parse_QueryRequest_bounds
           {| raw_query := Demo.question; raw_k := None;
              raw_namespace := "My Book "; raw_alpha := None |}
           {| req_query := Demo.question; req_k := 3;
              req_namespace := "my_book"; req_alpha := f_half |}).
  vm_compute. reflexivity.
Defined.

(** ** What a run appends to the trace *)

Lemma emits_ret {A} (Q : Event -> Prop) (a : A) : emits Q (ret a).
Proof. intros t. exists []. rewrite app_nil_r. split; [ reflexivity | constructor ]. Qed.

Lemma emits_raise {A} (Q : Event -> Prop) (e : PyExc) : emits Q (@raise A e).
Proof. intros t. exists []. rewrite app_nil_r. split; [ reflexivity | constructor ]. Qed.

Lemma emits_lift {A} (Q : Event -> Prop) (r : Result A) : emits Q (lift r).
Proof. intros t. exists []. rewrite app_nil_r. split; [ reflexivity | constructor ]. Qed.

Lemma emits_call {A} (Q : Event -> Prop) (ev : Event) (answer : Trace -> Result A) :
  Q ev -> emits Q (call ev answer).
Proof.
  intros H t. exists [ev]. split; [ reflexivity | ]. constructor; [ exact H | constructor ].
Qed.

Lemma emits_bind {A B} (Q : Event -> Prop) (m : M A) (f : A -> M B) :
  emits Q m -> (forall a, emits Q (f a)) -> emits Q (bind m f).
Proof.
  intros Hm Hf t. unfold bind.
  destruct (Hm t) as (new & Ht & Hq).
  destruct (m t) as [[a | e] t']; cbn [snd] in Ht; subst t'.
  - destruct (Hf a (t ++ new)) as (new' & Ht' & Hq').
    exists (new ++ new'). rewrite Ht', app_assoc. split; [ reflexivity | ].
    apply Forall_app. split; assumption.
  - exists new. split; [ reflexivity | exact Hq ].
Qed.

Lemma emits_try_except {A} (Q : Event -> Prop) (body : M A) (handler : PyExc -> M A) :
  emits Q body -> (forall e, emits Q (handler e)) -> emits Q (try_except body handler).
Proof.
  intros Hm Hh t. unfold try_except.
  destruct (Hm t) as (new & Ht & Hq).
  destruct (body t) as [[a | e] t']; cbn [snd] in Ht; subst t'.
  - exists new. split; [ reflexivity | exact Hq ].
  - destruct (Hh e (t ++ new)) as (new' & Ht' & Hq').
    exists (new ++ new'). rewrite Ht', app_assoc. split; [ reflexivity | ].
    apply Forall_app. split; assumption.
Qed.

Lemma emits_for_each {A} (Q : Event -> Prop) (l : list A) (body : A -> M unit) :
  (forall x, emits Q (body x)) -> emits Q (for_each l body).
Proof.
  intros Hb. induction l as [ | x l IH ]; cbn [for_each].
  - apply emits_ret.
  - apply emits_bind; [ apply Hb | intros _; exact IH ].
Qed.

Lemma emits_weaken {A} (Q Q' : Event -> Prop) (m : M A) :
  (forall e, Q e -> Q' e) -> emits Q m -> emits Q' m.
Proof.
  intros Hw Hm t. destruct (Hm t) as (new & Ht & Hq).
  exists new. split; [ exact Ht | ]. eapply Forall_impl; [ exact Hw | exact Hq ].
Qed.

(** ** More on the gateway *)

Lemma py_range_backwards (n step : Z) : 0 <= n -> step < 0 -> py_range 0 n step = [].
Proof.
  intros Hn Hs. unfold py_range.
  destruct (Z.to_nat (Z.abs (n - 0))) as [ | fuel ]; [ reflexivity | ].
  cbn [py_range_aux].
  replace (0 <? step) with false by (symmetry; apply Z.ltb_ge; lia).
  replace (n <? 0) with false by (symmetry; apply Z.ltb_ge; lia).
  reflexivity.
Qed.

(** X5: two batch sizes make no sense of an upload, and the code treats
    them apart: with batch size 0 it raises [ZeroDivisionError], with a
    negative batch size it returns as if all went well; in both cases the
    index is not called and no record is written. *)
Theorem upload_vectors_degenerate_batch_size (P : Provider) (vectors : list Vector)
    (ns : string) (batch_size : Z) (t : Trace) :
  vectors <> [] -> ns <> "" -> batch_size <= 0 ->
  upload_vectors P vectors ns batch_size t
    = (if batch_size =? 0 then Raise ZeroDivisionError else Ok tt, t).
Proof.
  intros Hv Hns Hb. unfold upload_vectors.
  destruct vectors as [ | v vs ]; [ contradiction Hv; reflexivity | ].
  apply String.eqb_neq in Hns. rewrite Hns.
  destruct (batch_size =? 0) eqn:E; [ reflexivity | ].
  apply Z.eqb_neq in E.
  rewrite py_range_backwards by (unfold len; lia). reflexivity.
Qed.

Lemma upload_vectors_degenerate_batch_size_witness :
  upload_vectors Demo.healthy (Demo.records 3) "ns" (-50) []
    = (if -50 =? 0 then Raise ZeroDivisionError else Ok tt, []).
Proof.
  apply (upload_vectors_degenerate_batch_size Demo.healthy (Demo.records 3) "ns" (-50) []).
  - vm_compute. intros H. discriminate H.
  - discriminate.
  - lia.
Defined.

Lemma upserted_app (a b : Trace) : upserted (a ++ b) = upserted a ++ upserted b.
Proof.
  induction a as [ | e a IH ]; [ reflexivity | ].
  destruct e; cbn [app upserted]; try exact IH.
  rewrite IH, app_assoc. reflexivity.
Qed.

Lemma upserted_upsert_events (ns : string) (bl : list (list Vector)) :
  upserted (upsert_events ns bl) = List.concat bl.
Proof.
  induction bl as [ | b bl IH ]; [ reflexivity | ].
  cbn [upsert_events map upserted List.concat]. unfold upsert_events in IH.
  rewrite IH. reflexivity.
Qed.

Lemma firstn_plus {A} (a b : nat) (l : list A) :
  firstn (a + b) l = firstn a l ++ firstn b (skipn a l).
Proof.
  revert l. induction a as [ | a IH ]; intros l; [ reflexivity | ].
  destruct l as [ | x l ]; cbn [Nat.add firstn skipn app].
  - rewrite firstn_nil. reflexivity.
  - rewrite IH. reflexivity.
Qed.

Lemma concat_firstn_pieces {A} (size fuel k : nat) (l : list A) :
  (1 <= size)%nat -> (List.length l <= fuel)%nat ->
  List.concat (firstn k (pieces fuel size l)) = firstn (k * size) l.
Proof.
  intros Hs. revert fuel l. induction k as [ | k IH ]; intros fuel l Hl; [ reflexivity | ].
  destruct fuel as [ | fuel ].
  - destruct l; [ | cbn in Hl; lia ]. cbn [pieces firstn List.concat].
    rewrite firstn_nil. reflexivity.
  - destruct l as [ | x l ].
    + cbn [pieces firstn List.concat]. rewrite firstn_nil. reflexivity.
    + cbn [pieces firstn List.concat]. rewrite IH.
      * cbn [Nat.mul]. rewrite firstn_plus. reflexivity.
      * rewrite length_skipn. cbn [List.length] in *. lia.
Qed.

Lemma upsert_events_all (ns : string) (size fuel : nat) (l : list Vector) (k : nat) :
  (1 <= size)%nat ->
  Forall (fun e => exists b, e = EvUpsert b ns /\ (1 <= List.length b <= size)%nat)
         (upsert_events ns (firstn k (pieces fuel size l))).
Proof.
  intros Hs. unfold upsert_events. apply Forall_map.
  apply Forall_forall. intros b Hb.
  assert (Hin : In b (pieces fuel size l)).
  { rewrite <- (firstn_skipn k (pieces fuel size l)). apply in_or_app. left. exact Hb. }
  clear Hb. rename Hin into Hb.
  exists b. split; [ reflexivity | ].
  pose proof (pieces_bounded size fuel l Hs) as HF.
  rewrite Forall_forall in HF. apply HF, Hb.
Qed.

(** X6: whatever the positive batch size [s], the records that
    [upload_vectors] sends to the index are, in order, a prefix of the
    records it was given, in batches of 1 to [s] records addressed to the
    given namespace; when it returns without an error it has sent all of
    them, each once, in [ceil(n/s)] calls. *)
Theorem upload_vectors_sends_a_prefix (P : Provider) (vectors : list Vector)
    (ns : string) (s : Z) (t : Trace) :
  vectors <> [] -> ns <> "" -> 0 < s ->
  exists (new : list Event) (k : nat),
    snd (upload_vectors P vectors ns s t) = t ++ new
    /\ upserted new = firstn (k * Z.to_nat s) vectors
    /\ Forall (fun e => exists b, e = EvUpsert b ns
                                  /\ (1 <= List.length b <= Z.to_nat s)%nat) new
    /\ (fst (upload_vectors P vectors ns s t) = Ok tt ->
        upserted new = vectors
        /\ Z.of_nat (List.length new) = ceil_div (len vectors) s).
Proof.
  intros Hv Hns Hs.
  rewrite (upload_vectors_loop P vectors ns s t Hv Hns) by lia.
  rewrite (batches_are_pieces vectors s Hs).
  set (size := Z.to_nat s). assert (Hsize : (1 <= size)%nat) by (subst size; lia).
  set (bl := pieces (List.length vectors) size vectors).
  destruct (upsert_loop_spec P ns bl t) as (k & Hk & Htr & _ & Hres).
  exists (upsert_events ns (firstn k bl)), k.
  split; [ exact Htr | split; [ | split ] ].
  - rewrite upserted_upsert_events. apply concat_firstn_pieces; [ exact Hsize | lia ].
  - apply upsert_events_all. exact Hsize.
  - intros Hok. destruct Hres as [[_ Hlen] | (e & He & _)]; [ | congruence ].
    subst k. rewrite firstn_all. split.
    + rewrite upserted_upsert_events. apply pieces_concat; [ exact Hsize | lia ].
    + unfold upsert_events. rewrite length_map. subst bl.
      rewrite (pieces_count size) by (try exact Hsize; lia).
      subst size. rewrite Z2Nat.id by lia. reflexivity.
Qed.

Lemma upload_vectors_sends_a_prefix_witness :
  exists (new : list Event) (k : nat),
    snd (upload_vectors Demo.healthy (Demo.records 7) "ns" 3 []) = [] ++ new
    /\ upserted new = firstn (k * Z.to_nat 3) (Demo.records 7)
    /\ Forall (fun e => exists b, e = EvUpsert b "ns"
                                  /\ (1 <= List.length b <= Z.to_nat 3)%nat) new
    /\ (fst (upload_vectors Demo.healthy (Demo.records 7) "ns" 3 []) = Ok tt ->
        upserted new = Demo.records 7
        /\ Z.of_nat (List.length new) = ceil_div (len (Demo.records 7)) 3).
Proof.
  apply (upload_vectors_sends_a_prefix Demo.healthy (Demo.records 7) "ns" 3 []).
  - vm_compute. intros H. discriminate H.
  - discriminate.
  - lia.
Defined.

(** X7: the gateway never addresses the index with an empty namespace:
    no upsert, query or delete call that [upload_vectors],
    [similarity_search] or [delete_namespace] makes carries the empty
    string, whatever the arguments. *)
Theorem gateway_never_sends_empty_namespace (P : Provider) :
  (forall vectors ns batch_size,
      emits (fun e => event_namespace e <> Some "") (upload_vectors P vectors ns batch_size))
  /\ (forall qe ns k sv alpha,
      emits (fun e => event_namespace e <> Some "") (similarity_search P qe ns k sv alpha))
  /\ (forall ns,
      emits (fun e => event_namespace e <> Some "") (delete_namespace P ns)).
Proof.
  split; [ | split ].
  - intros vectors ns batch_size. unfold upload_vectors.
    destruct vectors as [ | v vs ]; [ apply emits_ret | ].
    destruct (String.eqb ns "") eqn:E; [ apply emits_raise | ].
    destruct (batch_size =? 0); [ apply emits_raise | ].
    apply emits_for_each. intros i. apply emits_call.
    cbn [event_namespace]. apply String.eqb_neq in E. congruence.
  - intros qe ns k sv alpha t. unfold similarity_search.
    destruct (String.eqb ns "") eqn:E.
    { exists []. rewrite app_nil_r. split; [ reflexivity | constructor ]. }
    apply String.eqb_neq in E. unfold bind, lift, ret, call, raise.
    destruct sv as [ sparse | ].
    + destruct (hybrid_score_norm qe sparse alpha) as [ [nd nsp] | e ].
      * eexists [_]. split; [ reflexivity | ].
        constructor; [ cbn [event_namespace qp_namespace]; congruence | constructor ].
      * exists []. rewrite app_nil_r. split; [ reflexivity | constructor ].
    + eexists [_]. split; [ reflexivity | ].
      constructor; [ cbn [event_namespace qp_namespace]; congruence | constructor ].
  - intros ns. unfold delete_namespace.
    destruct (String.eqb ns "") eqn:E; [ apply emits_raise | ].
    apply emits_call. cbn [event_namespace]. apply String.eqb_neq in E. congruence.
Qed.

(** ** More on [query] *)

Lemma hybrid_score_norm_out_of_range (d : list float) (s : SparseVector) (alpha : float) :
  flt alpha f0 = true \/ flt f1 alpha = true ->
  hybrid_score_norm d s alpha = Raise (ValueError [FLit "Alpha must be between 0 and 1"]).
Proof.
  intros H. unfold hybrid_score_norm.
  destruct H as [H | H]; rewrite H; [ | rewrite orb_true_r ]; reflexivity.
Qed.

(** X8: [query] checks [alpha] last.  For an existing namespace and an
    [alpha] below 0 or above 1, the namespaces are listed, the query is
    embedded and encoded, and only then the [ValueError] of
    [hybrid_score_norm] is raised; the index is not queried, and the
    handler answers 404. *)
Theorem query_rejects_alpha_after_encoding (P : Provider) (q ns : string) (k : Z)
    (alpha : float) (t : Trace) (avail : list string) (emb : list float)
    (sv : SparseVector) (others : list SparseVector) :
  index_describe_stats P t = Ok avail -> str_in ns avail = true -> ns <> "" ->
  embed_query P (t ++ [EvDescribeStats]) q = Ok emb ->
  encode_queries P (t ++ [EvDescribeStats; EvEmbedQuery q]) [q] = Ok (sv :: others) ->
  flt alpha f0 = true \/ flt f1 alpha = true ->
  query P q ns k alpha t
    = (Raise (ValueError [FLit "Alpha must be between 0 and 1"]),
       t ++ [EvDescribeStats; EvEmbedQuery q; EvEncodeQueries [q]])
  /\ fst (query_document P {| req_query := q; req_k := k; req_namespace := ns;
                              req_alpha := alpha |} t)
     = Raise (HTTPException 404 [FLit "Alpha must be between 0 and 1"]).
Proof.
  intros Hs Hin Hns He Hq Ha.
  assert (Hrun : query P q ns k alpha t
                 = (Raise (ValueError [FLit "Alpha must be between 0 and 1"]),
                    t ++ [EvDescribeStats; EvEmbedQuery q; EvEncodeQueries [q]])).
  { run_query_prefix Hs Hin He Hq.
    unfold similarity_search. apply String.eqb_neq in Hns. rewrite Hns.
    unfold bind, lift. rewrite (hybrid_score_norm_out_of_range emb sv alpha Ha).
    reflexivity. }
  split; [ exact Hrun | ].
  unfold query_document. cbn [req_query req_k req_namespace req_alpha].
  rewrite Hrun. reflexivity.
Qed.

Lemma query_rejects_alpha_after_encoding_witness :
  query Demo.healthy Demo.question "ns" 3 f_1_01 Demo.one_record
    = (Raise (ValueError [FLit "Alpha must be between 0 and 1"]),
       Demo.one_record ++ [EvDescribeStats; EvEmbedQuery Demo.question;
                           EvEncodeQueries [Demo.question]])
  /\ fst (query_document Demo.healthy
            {| req_query := Demo.question; req_k := 3; req_namespace := "ns";
               req_alpha := f_1_01 |} Demo.one_record)
     = Raise (HTTPException 404 [FLit "Alpha must be between 0 and 1"]).
Proof.
  apply (query_rejects_alpha_after_encoding Demo.healthy Demo.question "ns" 3 f_1_01
           Demo.one_record ["ns"] Demo.dense1 Demo.sparse1 []);
    try (vm_compute; reflexivity).
  - discriminate.
  - right. vm_compute. reflexivity.
Defined.

(** X9: [query] only reads.  Every call it makes lists the namespaces,
    embeds or encodes the query, queries the index or asks the language
    model; it never upserts, deletes, loads a document or touches a file.
    The same holds for the handler [query_document]. *)
Theorem query_only_reads (P : Provider) (q ns : string) (k : Z) (alpha : float) :
  emits (fun e => is_query_call e = true) (query P q ns k alpha)
  /\ emits (fun e => is_query_call e = true)
       (query_document P {| req_query := q; req_k := k; req_namespace := ns;
                            req_alpha := alpha |}).
Proof.
  assert (H : emits (fun e => is_query_call e = true) (query P q ns k alpha)).
  { unfold query.
    apply emits_bind; [ apply emits_call; reflexivity | intros avail ].
    destruct (negb (str_in ns avail)); [ apply emits_raise | ].
    apply emits_bind; [ apply emits_call; reflexivity | intros emb ].
    apply emits_bind; [ apply emits_call; reflexivity | intros encoded ].
    apply emits_bind;
      [ destruct encoded; [ apply emits_raise | apply emits_ret ] | intros sv ].
    apply emits_bind.
    - unfold similarity_search.
      destruct (String.eqb ns ""); [ apply emits_raise | ].
      apply emits_bind.
      + apply emits_bind; [ apply emits_lift | intros [nd nsp]; apply emits_ret ].
      + intros params. apply emits_call. reflexivity.
    - intros results. destruct results as [ | m ms ]; [ apply emits_raise | ].
      apply emits_bind; [ apply emits_lift | intros texts ].
      apply emits_bind; [ apply emits_call; reflexivity | intros response ].
      apply emits_bind; [ apply emits_lift | intros srcs; apply emits_ret ]. }
  split; [ exact H | ].
  intros t. destruct (H t) as (new & Ht & Hq). exists new. split; [ | exact Hq ].
  unfold query_document. cbn [req_query req_k req_namespace req_alpha].
  destruct (query P q ns k alpha t) as [[r | e] t']; cbn [snd] in *; [ exact Ht | ].
  destruct e; exact Ht.
Qed.




(** ** Ingestion as a whole *)

Lemma upload_vectors_ingest (P : Provider) (vectors : list Vector) (ns : string)
    (batch_size : Z) :
  emits (fun e => is_ingest_call ns e = true) (upload_vectors P vectors ns batch_size).
Proof.
  unfold upload_vectors.
  destruct vectors as [ | v vs ]; [ apply emits_ret | ].
  destruct (String.eqb ns ""); [ apply emits_raise | ].
  destruct (batch_size =? 0); [ apply emits_raise | ].
  apply emits_for_each. intros i. apply emits_call.
  cbn [is_ingest_call]. apply String.eqb_refl.
Qed.

Lemma process_loaded_ingest (P : Provider) (settings : Settings)
    (documents : list Document) (ns : string) :
  emits (fun e => is_ingest_call ns e = true) (process_loaded P settings documents ns).
Proof.
  unfold process_loaded, chunk_documents, get_embeddings, _get_bm25_vectors.
  apply emits_bind; [ apply emits_call; reflexivity | intros chunks ].
  apply emits_bind; [ apply emits_call; reflexivity | intros embeddings ].
  apply emits_bind; [ apply emits_call; reflexivity | intros sparse_vectors ].
  apply upload_vectors_ingest.
Qed.

Lemma process_document_ingest (P : Provider) (settings : Settings)
    (file_path ns : string) :
  emits (fun e => is_ingest_call ns e = true) (process_document P settings file_path ns).
Proof.
  unfold process_document, load_pdf_from_path.
  apply emits_bind; [ | intros documents; apply process_loaded_ingest ].
  apply emits_bind; [ apply emits_call; reflexivity | intros present ].
  destruct (negb present); [ apply emits_raise | apply emits_call; reflexivity ].
Qed.

Lemma process_url_document_ingest (P : Provider) (settings : Settings) (url ns : string) :
  emits (fun e => is_ingest_call ns e = true) (process_url_document P settings url ns).
Proof.
  unfold process_url_document, load_pdf_from_url.
  apply emits_bind; [ | intros documents; apply process_loaded_ingest ].
  apply emits_try_except; [ apply emits_call; reflexivity | intros e; apply emits_raise ].
Qed.

(** X11: an ingestion writes to one namespace only, the one it was given,
    as it was given.  Every call [process_document] and
    [process_url_document] make loads, splits, embeds, encodes, or upserts
    into that namespace; they never query or delete.  The upload handler
    does the same with [namespace or "think-and-grow-rich"], apart from
    saving and removing the uploaded file. *)
Theorem ingestion_writes_one_namespace (P : Provider) (settings : Settings) :
  (forall file_path ns,
      emits (fun e => is_ingest_call ns e = true)
            (process_document P settings file_path ns))
  /\ (forall url ns,
      emits (fun e => is_ingest_call ns e = true)
            (process_url_document P settings url ns))
  /\ (forall file namespace,
      emits (fun e => is_upload_call (str_or namespace "think-and-grow-rich") e = true)
            (upload_document P settings file namespace))
  /\ (forall url ns,
      emits (fun e => is_ingest_call ns e = true) (upload_url P settings url ns)).
Proof.
  split; [ intros; apply process_document_ingest | ].
  split; [ intros; apply process_url_document_ingest | ].
  split.
  - intros file namespace. unfold upload_document.
    set (ns := str_or namespace "think-and-grow-rich").
    apply emits_try_except; [ | intros e; apply emits_raise ].
    apply emits_bind.
    + destruct file as [ f | ].
      * apply emits_bind; [ apply emits_call; reflexivity | intros _ ].
        apply emits_bind; [ apply emits_call; reflexivity | intros _ ].
        apply emits_ret.
      * apply emits_bind; [ apply emits_call; reflexivity | intros present ].
        destruct (negb present); [ apply emits_raise | apply emits_ret ].
    + intros file_path. apply emits_bind.
      * apply (emits_weaken (fun e => is_ingest_call ns e = true));
          [ | apply process_document_ingest ].
        intros e He. destruct e; try discriminate He; try reflexivity; exact He.
      * intros _. apply emits_bind; [ | intros _; apply emits_ret ].
        destruct file as [ f | ]; [ | apply emits_ret ].
        apply emits_bind; [ apply emits_call; reflexivity | intros present ].
        destruct present; [ apply emits_call; reflexivity | apply emits_ret ].
  - intros url ns. unfold upload_url.
    apply emits_try_except; [ | intros e; apply emits_raise ].
    apply emits_bind; [ apply process_url_document_ingest | intros _; apply emits_ret ].
Qed.

Lemma upload_vectors_success (P : Provider) (vectors : list Vector) (ns : string)
    (s : Z) (t : Trace) :
  0 < s ->
  fst (upload_vectors P vectors ns s t) = Ok tt ->
  exists new, snd (upload_vectors P vectors ns s t) = t ++ new
              /\ upserted new = vectors.
Proof.
  intros Hs Hok.
  destruct vectors as [ | v vs ].
  { exists []. rewrite app_nil_r. split; reflexivity. }
  destruct (String.eqb ns "") eqn:Hns.
  { unfold upload_vectors in Hok. rewrite Hns in Hok. discriminate Hok. }
  apply String.eqb_neq in Hns.
  assert (Hv : v :: vs <> []) by discriminate.
  rewrite (upload_vectors_loop P (v :: vs) ns s t Hv Hns) in * by lia.
  rewrite (batches_are_pieces (v :: vs) s Hs) in *.
  set (bl := pieces (List.length (v :: vs)) (Z.to_nat s) (v :: vs)) in *.
  destruct (upsert_loop_spec P ns bl t) as (k & Hk & Htr & _ & Hres).
  destruct Hres as [[_ Hlen] | (e & He & _)]; [ | congruence ].
  exists (upsert_events ns (firstn k bl)). split; [ exact Htr | ].
  subst k. rewrite firstn_all, upserted_upsert_events.
  apply pieces_concat; lia.
Qed.

(** X12: when [process_document] returns without an error, the file was
    there, the embedding model and the sparse encoder were given the same
    texts, those of the chunks in order, and the records sent to the index
    are exactly the assembled ones, each once and in order. *)
Theorem process_document_uploads_what_it_assembled (P : Provider) (settings : Settings)
    (file_path ns : string) (t : Trace) :
  fst (process_document P settings file_path ns t) = Ok tt ->
  exists documents chunks embeddings sparse_vectors new,
    path_exists P t file_path = true
    /\ load_pdf P (t ++ [EvPathExists file_path]) file_path = Ok documents
    /\ split_documents P (t ++ [EvPathExists file_path; EvLoadPdf file_path])
         documents (CHUNK_SIZE settings) (CHUNK_OVERLAP settings) = Ok chunks
    /\ snd (process_document P settings file_path ns t)
       = t ++ [EvPathExists file_path; EvLoadPdf file_path;
               EvSplit documents (CHUNK_SIZE settings) (CHUNK_OVERLAP settings);
               EvEmbedDocuments (map page_content chunks);
               EvEncodeDocuments (map page_content chunks)] ++ new
    /\ embed_documents P
         (t ++ [EvPathExists file_path; EvLoadPdf file_path;
                EvSplit documents (CHUNK_SIZE settings) (CHUNK_OVERLAP settings)])
         (map page_content chunks) = Ok embeddings
    /\ encode_documents P
         (t ++ [EvPathExists file_path; EvLoadPdf file_path;
                EvSplit documents (CHUNK_SIZE settings) (CHUNK_OVERLAP settings);
                EvEmbedDocuments (map page_content chunks)])
         (map page_content chunks) = Ok sparse_vectors
    /\ upserted new = prepare_vectors ns chunks embeddings sparse_vectors.
Proof.
  unfold process_document, load_pdf_from_path, process_loaded, chunk_documents,
    get_embeddings, _get_bm25_vectors, bind, call.
  destruct (path_exists P t file_path) eqn:Hp; cbn [negb]; [ | intros H; discriminate H ].
  destruct (load_pdf P (t ++ [EvPathExists file_path]) file_path)
    as [ documents | e ] eqn:Hl; [ | intros H; discriminate H ].
  rewrite <- app_assoc. cbn [app].
  destruct (split_documents P _ documents _ _) as [ chunks | e ] eqn:Hc;
    [ | intros H; discriminate H ].
  rewrite <- app_assoc. cbn [app].
  destruct (embed_documents P _ (map page_content chunks)) as [ embeddings | e ] eqn:He;
    [ | intros H; discriminate H ].
  rewrite <- app_assoc. cbn [app].
  destruct (encode_documents P _ (map page_content chunks)) as [ sparse_vectors | e ] eqn:Hs;
    [ | intros H; discriminate H ].
  rewrite <- app_assoc. cbn [app].
  intros Hok.
  destruct (upload_vectors_success P _ ns 50 _ ltac:(lia) Hok) as (new & Htr & Hup).
  exists documents, chunks, embeddings, sparse_vectors, new.
  rewrite Htr, <- app_assoc. cbn [app].
  repeat (split; [ reflexivity || assumption | ]). exact Hup.
Qed.

Lemma process_document_uploads_what_it_assembled_witness :
  exists documents chunks embeddings sparse_vectors new,
    path_exists Demo.healthy [] "doc.pdf" = true
    /\ load_pdf Demo.healthy ([] ++ [EvPathExists "doc.pdf"]) "doc.pdf" = Ok documents
    /\ split_documents Demo.healthy ([] ++ [EvPathExists "doc.pdf"; EvLoadPdf "doc.pdf"])
         documents (CHUNK_SIZE Demo.settings) (CHUNK_OVERLAP Demo.settings) = Ok chunks
    /\ snd (process_document Demo.healthy Demo.settings "doc.pdf" "ns" [])
       = [] ++ [EvPathExists "doc.pdf"; EvLoadPdf "doc.pdf";
                EvSplit documents (CHUNK_SIZE Demo.settings) (CHUNK_OVERLAP Demo.settings);
                EvEmbedDocuments (map page_content chunks);
                EvEncodeDocuments (map page_content chunks)] ++ new
    /\ embed_documents Demo.healthy
         ([] ++ [EvPathExists "doc.pdf"; EvLoadPdf "doc.pdf";
                 EvSplit documents (CHUNK_SIZE Demo.settings)
                   (CHUNK_OVERLAP Demo.settings)])
         (map page_content chunks) = Ok embeddings
    /\ encode_documents Demo.healthy
         ([] ++ [EvPathExists "doc.pdf"; EvLoadPdf "doc.pdf";
                 EvSplit documents (CHUNK_SIZE Demo.settings)
                   (CHUNK_OVERLAP Demo.settings);
                 EvEmbedDocuments (map page_content chunks)])
         (map page_content chunks) = Ok sparse_vectors
    /\ upserted new = prepare_vectors "ns" chunks embeddings sparse_vectors.
Proof.
  apply (process_document_uploads_what_it_assembled Demo.healthy Demo.settings
           "doc.pdf" "ns" []).
  vm_compute. reflexivity.
Defined.

(** X13: a failure of the embedding model or of the sparse encoder aborts
    the ingestion before the index is touched: the exception is passed on
    and no record has been sent. *)
Theorem process_loaded_fails_before_upload (P : Provider) (settings : Settings)
    (documents chunks : list Document) (ns : string) (t : Trace) (e : PyExc) :
  split_documents P t documents (CHUNK_SIZE settings) (CHUNK_OVERLAP settings)
    = Ok chunks ->
  (embed_documents P
     (t ++ [EvSplit documents (CHUNK_SIZE settings) (CHUNK_OVERLAP settings)])
     (map page_content chunks) = Raise e
   \/ exists embeddings,
        embed_documents P
          (t ++ [EvSplit documents (CHUNK_SIZE settings) (CHUNK_OVERLAP settings)])
          (map page_content chunks) = Ok embeddings
        /\ encode_documents P
             (t ++ [EvSplit documents (CHUNK_SIZE settings) (CHUNK_OVERLAP settings);
                    EvEmbedDocuments (map page_content chunks)])
             (map page_content chunks) = Raise e) ->
  fst (process_loaded P settings documents ns t) = Raise e
  /\ exists new, snd (process_loaded P settings documents ns t) = t ++ new
                 /\ forallb (fun ev => negb (is_upsert ev)) new = true.
Proof.
  intros Hc Hfail.
  unfold process_loaded, chunk_documents, get_embeddings, _get_bm25_vectors, bind, call.
  rewrite Hc.
  destruct Hfail as [He | (embeddings & He & Hs)]; rewrite He.
  - split; [ reflexivity | ]. eexists [_; _]. cbn [snd].
    rewrite <- app_assoc. split; reflexivity.
  - rewrite <- app_assoc. cbn [app]. rewrite Hs.
    split; [ reflexivity | ]. eexists [_; _; _]. cbn [snd].
    rewrite <- !app_assoc. split; reflexivity.
Qed.

Lemma process_loaded_fails_before_upload_witness :
  fst (process_loaded Faulty.no_embedder Demo.settings [Demo.paris] "ns" []) = Raise Faulty.down
  /\ exists new,
       snd (process_loaded Faulty.no_embedder Demo.settings [Demo.paris] "ns" []) = [] ++ new
       /\ forallb (fun ev => negb (is_upsert ev)) new = true.
Proof.
  apply (process_loaded_fails_before_upload Faulty.no_embedder Demo.settings
           [Demo.paris] [Demo.paris] "ns" [] Faulty.down).
  - vm_compute. reflexivity.
  - left. vm_compute. reflexivity.
Defined.

(** X14: a document without chunks is ingested without an error and
    without a call to the index, whatever the namespace, the empty one
    included; the embedding model and the encoder are still called, with
    no text. *)
Theorem process_loaded_empty_document (P : Provider) (settings : Settings)
    (documents : list Document) (ns : string) (t : Trace)
    (embeddings : list (list float)) (sparse_vectors : list SparseVector) :
  split_documents P t documents (CHUNK_SIZE settings) (CHUNK_OVERLAP settings) = Ok [] ->
  embed_documents P
    (t ++ [EvSplit documents (CHUNK_SIZE settings) (CHUNK_OVERLAP settings)]) []
    = Ok embeddings ->
  encode_documents P
    (t ++ [EvSplit documents (CHUNK_SIZE settings) (CHUNK_OVERLAP settings);
           EvEmbedDocuments []]) []
    = Ok sparse_vectors ->
  process_loaded P settings documents ns t
    = (Ok tt,
       t ++ [EvSplit documents (CHUNK_SIZE settings) (CHUNK_OVERLAP settings);
             EvEmbedDocuments []; EvEncodeDocuments []]).
Proof.
  intros Hc He Hs.
  unfold process_loaded, chunk_documents, get_embeddings, _get_bm25_vectors, bind, call.
  rewrite Hc. cbn [map]. rewrite He. rewrite <- app_assoc. cbn [app]. rewrite Hs.
  rewrite <- app_assoc. reflexivity.
Qed.

Lemma process_loaded_empty_document_witness :
  process_loaded Faulty.empty_document Demo.settings [] "" []
    = (Ok tt,
       [] ++ [EvSplit [] (CHUNK_SIZE Demo.settings) (CHUNK_OVERLAP Demo.settings);
              EvEmbedDocuments []; EvEncodeDocuments []]).
Proof.
  apply (process_loaded_empty_document Faulty.empty_document Demo.settings [] "" [] [] []);
    vm_compute; reflexivity.
Defined.

(** ** The handlers of the document router *)

Lemma try_except_500 {A} (body : M A) (t : Trace) :
  http_status (fst (try_except body
                      (fun e => raise (HTTPException 500 (str_of_exc e))) t)) = 200
  \/ http_status (fst (try_except body
                         (fun e => raise (HTTPException 500 (str_of_exc e))) t)) = 500.
Proof.
  unfold try_except, raise. destruct (body t) as [[a | e] t']; [ left | right ]; reflexivity.
Qed.

(** X15: the handlers of the document router answer 200 or 500 and
    nothing else: whatever is raised while uploading, deleting or listing,
    a 404 raised by the handler itself included, leaves as a 500. *)
Theorem document_handlers_answer_200_or_500 (P : Provider) (settings : Settings)
    (t : Trace) :
  (forall file namespace,
      http_status (fst (upload_document P settings file namespace t)) = 200
      \/ http_status (fst (upload_document P settings file namespace t)) = 500)
  /\ (forall url ns,
      http_status (fst (upload_url P settings url ns t)) = 200
      \/ http_status (fst (upload_url P settings url ns t)) = 500)
  /\ (forall ns,
      http_status (fst (router_delete_document P ns t)) = 200
      \/ http_status (fst (router_delete_document P ns t)) = 500)
  /\ (http_status (fst (router_list_namespaces P t)) = 200
      \/ http_status (fst (router_list_namespaces P t)) = 500).
Proof.
  repeat split; intros; apply try_except_500.
Qed.

(** X16: an upload without a file, when the default document is not on
    the disk, is answered with 500: the 404 the handler raises is caught
    by its own handler.  Nothing is loaded, embedded or sent to the
    index. *)
Theorem upload_document_missing_default_file (P : Provider) (settings : Settings)
    (namespace : option string) (t : Trace) :
  path_exists P t (PDF_PATH settings) = false ->
  exists detail,
    upload_document P settings None namespace t
      = (Raise (HTTPException 500 detail), t ++ [EvPathExists (PDF_PATH settings)]).
Proof.
  intros Hp. unfold upload_document, try_except, bind, call, raise.
  rewrite Hp. cbn [negb]. eexists. reflexivity.
Qed.

Lemma upload_document_missing_default_file_witness :
  exists detail,
    upload_document Faulty.no_file Demo.settings None (Some "ns") []
      = (Raise (HTTPException 500 detail), [] ++ [EvPathExists (PDF_PATH Demo.settings)]).
Proof.
  apply (upload_document_missing_default_file Faulty.no_file Demo.settings (Some "ns") []).
  reflexivity.
Defined.

(** X17: when the document behind a URL cannot be fetched or read,
    [upload_url] answers 500 with a detail that starts with "Failed to
    process PDF from URL: " and goes on with the text of the failure;
    nothing is split, embedded or sent to the index. *)
Theorem upload_url_unreachable (P : Provider) (settings : Settings) (url ns : string)
    (t : Trace) (e : PyExc) :
  load_pdf_url P t url = Raise e ->
  upload_url P settings url ns t
    = (Raise (HTTPException 500
                (FLit "Failed to process PDF from URL: " :: str_of_exc e)),
       t ++ [EvLoadPdfUrl url]).
Proof.
  intros Hl.
  unfold upload_url, process_url_document, load_pdf_from_url, try_except, bind, call, raise.
  rewrite Hl. reflexivity.
Qed.

Lemma upload_url_unreachable_witness :
  upload_url Faulty.no_network Demo.settings "http://host/book.pdf" "ns" []
    = (Raise (HTTPException 500
                (FLit "Failed to process PDF from URL: " :: str_of_exc Faulty.down)),
       [] ++ [EvLoadPdfUrl "http://host/book.pdf"]).
Proof.
  apply (upload_url_unreachable Faulty.no_network Demo.settings "http://host/book.pdf"
           "ns" [] Faulty.down).
  reflexivity.
Defined.

(** ** Record ids *)

Lemma to_uint_not_nil (n : nat) : Nat.to_uint n <> Decimal.Nil.
Proof.
  intros H.
  assert (Hn : n = 0%nat).
  { rewrite <- (DecimalNat.Unsigned.of_to n), H. reflexivity. }
  subst n. vm_compute in H. discriminate H.
Qed.

Lemma str_of_nat_inj (a b : nat) : str_of_nat a = str_of_nat b -> a = b.
Proof.
  unfold str_of_nat. intros H.
  apply (f_equal NilZero.uint_of_string) in H.
  rewrite !NilZero.usu in H by apply to_uint_not_nil.
  injection H as H. apply DecimalNat.Unsigned.to_uint_inj, H.
Qed.

Lemma string_app_cancel (p a b : string) : (p ++ a)%string = (p ++ b)%string -> a = b.
Proof.
  induction p as [ | c p IH ]; cbn; intros H; [ exact H | ].
  injection H as H. apply IH, H.
Qed.

Lemma enumerate_from_fst {A} (l : list A) (j : nat) :
  map fst (enumerate_from j l) = seq j (List.length l).
Proof.
  revert j. induction l as [ | x l IH ]; intros j; cbn; [ | rewrite IH ]; reflexivity.
Qed.

Lemma prepare_vectors_ids (ns : string) (chunks : list Document)
    (embeddings : list (list float)) (sparse_vectors : list SparseVector) :
  map vec_id (prepare_vectors ns chunks embeddings sparse_vectors)
    = map (fun i => (ns ++ "#chunk" ++ str_of_nat (i + 1))%string)
          (seq 0 (List.length (zip3 chunks embeddings sparse_vectors))).
Proof.
  unfold prepare_vectors, enumerate.
  rewrite <- enumerate_from_fst, !map_map.
  apply map_ext. intros [i [[doc emb] sv]]. reflexivity.
Qed.

(** X18: the ids of the assembled records are [namespace#chunk1],
    [namespace#chunk2], ... in order, as many as the shortest of the three
    sequences has elements, and no two records share an id. *)
Theorem prepare_vectors_ids_are_unique (ns : string) (chunks : list Document)
    (embeddings : list (list float)) (sparse_vectors : list SparseVector) :
  map vec_id (prepare_vectors ns chunks embeddings sparse_vectors)
    = map (fun i => (ns ++ "#chunk" ++ str_of_nat i)%string)
          (seq 1 (Nat.min (List.length chunks)
                    (Nat.min (List.length embeddings) (List.length sparse_vectors))))
  /\ NoDup (map vec_id (prepare_vectors ns chunks embeddings sparse_vectors)).
Proof.
  rewrite prepare_vectors_ids, zip3_length.
  set (n := Nat.min _ _). split.
  - rewrite <- seq_shift, map_map. apply map_ext. intros i.
    rewrite Nat.add_1_r. reflexivity.
  - apply Finite.Injective_map_NoDup; [ | apply seq_NoDup ].
    intros i j H. apply string_app_cancel, string_app_cancel, str_of_nat_inj in H. lia.
Qed.

(** ** More on [hybrid_score_norm] *)

(** X19: scaling keeps the shape of the vectors: the dense vector keeps
    its dimension, the sparse vector keeps its indices and as many values
    as before; indices and values that were paired off still are. *)
Theorem hybrid_score_norm_keeps_shape (d : list float) (s : SparseVector) (alpha : float)
    (d' : list float) (s' : SparseVector) :
  hybrid_score_norm d s alpha = Ok (d', s') ->
  List.length d' = List.length d
  /\ indices s' = indices s
  /\ List.length (values s') = List.length (values s)
  /\ (List.length (indices s) = List.length (values s) ->
      List.length (indices s') = List.length (values s')).
Proof.
  unfold hybrid_score_norm. destruct (flt alpha f0 || flt f1 alpha); [ intros H; discriminate H | ].
  intros H. injection H as <- <-. cbn [indices values].
  rewrite !length_map. repeat split. intros H. exact H.
Qed.

Lemma hybrid_score_norm_keeps_shape_witness :
  List.length [f_half; S754_finite false 4503599627370496 (-54)] = List.length Demo.dense1
  /\ indices {| indices := [7; 42];
                values := [f_half; S754_finite false 4503599627370496 (-54)] |}
     = indices Demo.sparse1
  /\ List.length (values {| indices := [7; 42];
                            values := [f_half; S754_finite false 4503599627370496 (-54)] |})
     = List.length (values Demo.sparse1)
  /\ (List.length (indices Demo.sparse1) = List.length (values Demo.sparse1) ->
      List.length (indices {| indices := [7; 42];
                              values := [f_half;
                                         S754_finite false 4503599627370496 (-54)] |})
      = List.length (values {| indices := [7; 42];
                               values := [f_half;
                                          S754_finite false 4503599627370496 (-54)] |})).
Proof.
  apply (hybrid_score_norm_keeps_shape Demo.dense1 Demo.sparse1 f_half).
  vm_compute. reflexivity.
Defined.

Lemma fmul_zero_r (x : float) (s : bool) :
  is_finite x = true -> fmul x (S754_zero s) = S754_zero (xorb (float_sign x) s).
Proof.
  destruct x as [ sx | sx | | sx m e ]; cbn [is_finite]; intros H;
    try discriminate H; reflexivity.
Qed.

(** X20: at the two ends of the range one side of the blend is switched
    off.  With [alpha = 1] every finite sparse weight is multiplied by
    [+0.0] and becomes a zero of its own sign; with [alpha = 0] every
    finite dense component does.  The indices stay in both cases. *)
Theorem hybrid_score_norm_at_the_ends (d : list float) (s : SparseVector) :
  Forall (fun x => is_finite x = true) d ->
  Forall (fun x => is_finite x = true) (values s) ->
  hybrid_score_norm d s f1
    = Ok (map (fun x => fmul x f1) d,
          {| indices := indices s;
             values := map (fun x => S754_zero (float_sign x)) (values s) |})
  /\ hybrid_score_norm d s f0
    = Ok (map (fun x => S754_zero (float_sign x)) d,
          {| indices := indices s; values := map (fun x => fmul x f1) (values s) |}).
Proof.
  intros Hd Hs.
  assert (Hz : forall l, Forall (fun x => is_finite x = true) l ->
                 map (fun x => fmul x f0) l = map (fun x => S754_zero (float_sign x)) l).
  { intros l Hl. apply map_ext_in. intros x Hx.
    rewrite Forall_forall in Hl. unfold f0. rewrite (fmul_zero_r x false (Hl x Hx)).
    rewrite xorb_false_r. reflexivity. }
  split.
  - rewrite hybrid_score_norm_ok by (vm_compute; reflexivity).
    replace (fsub f1 f1) with f0 by (vm_compute; reflexivity).
    rewrite (Hz (values s) Hs). reflexivity.
  - rewrite hybrid_score_norm_ok by (vm_compute; reflexivity).
    replace (fsub f1 f0) with f1 by (vm_compute; reflexivity).
    rewrite (Hz d Hd). reflexivity.
Qed.

Lemma hybrid_score_norm_at_the_ends_witness :
  hybrid_score_norm Demo.dense1 Demo.sparse1 f1
    = Ok (map (fun x => fmul x f1) Demo.dense1,
          {| indices := indices Demo.sparse1;
             values := map (fun x => S754_zero (float_sign x)) (values Demo.sparse1) |})
  /\ hybrid_score_norm Demo.dense1 Demo.sparse1 f0
    = Ok (map (fun x => S754_zero (float_sign x)) Demo.dense1,
          {| indices := indices Demo.sparse1;
             values := map (fun x => fmul x f1) (values Demo.sparse1) |}).
Proof.
  apply (hybrid_score_norm_at_the_ends Demo.dense1 Demo.sparse1).
  - repeat constructor.
  - repeat constructor.
Defined.

(** ** Failures of [query] the handler reports as server errors *)

(** X21: when the sparse encoder returns no vector for the query, taking
    its first element raises [IndexError]; the index is not queried, and
    the handler answers 500. *)
Theorem query_encoder_returns_nothing (P : Provider) (q ns : string) (k : Z)
    (alpha : float) (t : Trace) (avail : list string) (emb : list float) :
  index_describe_stats P t = Ok avail -> str_in ns avail = true ->
  embed_query P (t ++ [EvDescribeStats]) q = Ok emb ->
  encode_queries P (t ++ [EvDescribeStats; EvEmbedQuery q]) [q] = Ok [] ->
  query P q ns k alpha t
    = (Raise IndexError, t ++ [EvDescribeStats; EvEmbedQuery q; EvEncodeQueries [q]])
  /\ http_status (fst (query_document P {| req_query := q; req_k := k;
                                           req_namespace := ns; req_alpha := alpha |} t))
     = 500.
Proof.
  intros Hs Hin He Hq.
  assert (Hrun : query P q ns k alpha t
                 = (Raise IndexError,
                    t ++ [EvDescribeStats; EvEmbedQuery q; EvEncodeQueries [q]])).
  { unfold query, bind, list_namespaces, call.
    rewrite Hs, Hin. cbn [negb]. rewrite He. rewrite <- app_assoc. cbn [app].
    rewrite Hq. unfold raise. rewrite <- app_assoc. reflexivity. }
  split; [ exact Hrun | ].
  unfold query_document. cbn [req_query req_k req_namespace req_alpha].
  rewrite Hrun. reflexivity.
Qed.

Lemma query_encoder_returns_nothing_witness :
  query Faulty.mute_encoder Demo.question "ns" 3 f_half Demo.one_record
    = (Raise IndexError,
       Demo.one_record ++ [EvDescribeStats; EvEmbedQuery Demo.question;
                           EvEncodeQueries [Demo.question]])
  /\ http_status (fst (query_document Faulty.mute_encoder
                         {| req_query := Demo.question; req_k := 3;
                            req_namespace := "ns"; req_alpha := f_half |}
                         Demo.one_record))
     = 500.
Proof.
  apply (query_encoder_returns_nothing Faulty.mute_encoder Demo.question "ns" 3 f_half
           Demo.one_record ["ns"] Demo.dense1);
    vm_compute; reflexivity.
Defined.

(** X22: when a match carries no ["text"] in its metadata (the matches
    before it carrying a [str] there), [query] fails with
    [KeyError('text')] while it builds the context: the language model is
    not asked, and the handler answers 500. *)
Theorem query_match_without_text (P : Provider) (q ns : string) (k : Z) (alpha : float)
    (t : Trace) (avail : list string) (emb : list float) (sv : SparseVector)
    (others : list SparseVector) (results : list Match) :
  index_describe_stats P t = Ok avail -> str_in ns avail = true -> ns <> "" ->
  embed_query P (t ++ [EvDescribeStats]) q = Ok emb ->
  encode_queries P (t ++ [EvDescribeStats; EvEmbedQuery q]) [q] = Ok (sv :: others) ->
  fle f0 alpha = true -> fle alpha f1 = true ->
  index_query P (t ++ [EvDescribeStats; EvEmbedQuery q; EvEncodeQueries [q]])
    (hybrid_params ns k alpha emb sv) = Ok results ->
  map_result match_text results = Raise (KeyError "text") ->
  query P q ns k alpha t
    = (Raise (KeyError "text"),
       t ++ [EvDescribeStats; EvEmbedQuery q; EvEncodeQueries [q];
             EvIndexQuery (hybrid_params ns k alpha emb sv)])
  /\ http_status (fst (query_document P {| req_query := q; req_k := k;
                                           req_namespace := ns; req_alpha := alpha |} t))
     = 500.
Proof.
  intros Hs Hin Hns He Hq H0 H1 Hr Hm.
  assert (Hrun : query P q ns k alpha t
                 = (Raise (KeyError "text"),
                    t ++ [EvDescribeStats; EvEmbedQuery q; EvEncodeQueries [q];
                          EvIndexQuery (hybrid_params ns k alpha emb sv)])).
  { run_query_prefix Hs Hin He Hq.
    rewrite (similarity_search_hybrid P emb ns k sv alpha _ Hns H0 H1).
    cbv zeta. fold (hybrid_params ns k alpha emb sv). rewrite Hr.
    destruct results as [ | m ms ]; [ discriminate Hm | ].
    unfold lift. rewrite Hm. rewrite <- app_assoc. reflexivity. }
  split; [ exact Hrun | ].
  unfold query_document. cbn [req_query req_k req_namespace req_alpha].
  rewrite Hrun. reflexivity.
Qed.

Lemma query_match_without_text_witness :
  query Faulty.bare_matches Demo.question "ns" 3 f_half Demo.one_record
    = (Raise (KeyError "text"),
       Demo.one_record
         ++ [EvDescribeStats; EvEmbedQuery Demo.question; EvEncodeQueries [Demo.question];
             EvIndexQuery (hybrid_params "ns" 3 f_half Demo.dense1 Demo.sparse1)])
  /\ http_status (fst (query_document Faulty.bare_matches
                         {| req_query := Demo.question; req_k := 3;
                            req_namespace := "ns"; req_alpha := f_half |}
                         Demo.one_record))
     = 500.
Proof.
  apply (query_match_without_text Faulty.bare_matches Demo.question "ns" 3 f_half
           Demo.one_record ["ns"] Demo.dense1 Demo.sparse1 [] [Faulty.bare_match]);
    try (vm_compute; reflexivity).
  discriminate.
Defined.
